(** * server.py: the resilient-fetch layer and the full-report aggregation

    A shallow embedding of [src/server.py]: the two provider clients
    ([fetch_alpha_vantage_data], [generate_gemini_content]) with their
    retry loops, and the consolidated route [get_full_stock_report].

    Conventions of the embedding.
    - Python [str] values are the bytes of their UTF-8 form ([string]);
      [str.lower] and [str.upper] are the ASCII case maps, and a slice
      counts characters.
    - A parsed JSON document is a [json] value; a Python [dict] with string
      keys is a [gmap string json].
    - The outside world (the HTTP endpoint, the generative model) is an
      oracle that answers the k-th outbound attempt; what the program does
      to the world (attempts, [time.sleep]) is recorded in a trace.
    - [print] calls are diagnostics and are not modelled, except for what
      evaluating their argument can raise (line 122 reads
      [response.text]). *)

From Stdlib Require Import ZArith Ascii String List Lia.
From stdpp Require Import base gmap strings list fin_maps.
Import ListNotations.
Open Scope string_scope.
Open Scope list_scope.

(** ** Python strings *)

Module PyStr.

Definition is_upper (a : ascii) : bool :=
  let n := nat_of_ascii a in (65 <=? n)%nat && (n <=? 90)%nat.

Definition is_lower (a : ascii) : bool :=
  let n := nat_of_ascii a in (97 <=? n)%nat && (n <=? 122)%nat.

Definition is_digit (a : ascii) : bool :=
  let n := nat_of_ascii a in (48 <=? n)%nat && (n <=? 57)%nat.

Definition lower_ascii (a : ascii) : ascii :=
  if is_upper a then ascii_of_nat (nat_of_ascii a + 32) else a.

Definition upper_ascii (a : ascii) : ascii :=
  if is_lower a then ascii_of_nat (nat_of_ascii a - 32) else a.

Fixpoint map_chars (f : ascii -> ascii) (s : string) : string :=
  match s with
  | EmptyString => EmptyString
  | String a s' => String (f a) (map_chars f s')
  end.

Fixpoint filter_chars (p : ascii -> bool) (s : string) : string :=
  match s with
  | EmptyString => EmptyString
  | String a s' => if p a then String a (filter_chars p s') else filter_chars p s'
  end.

(** [s.lower()] and [s.upper()] *)
Definition lower (s : string) : string := map_chars lower_ascii s.
Definition upper (s : string) : string := map_chars upper_ascii s.

(** [needle in hay] for two strings *)
Fixpoint str_in (needle hay : string) : bool :=
  String.prefix needle hay ||
  match hay with
  | EmptyString => false
  | String _ hay' => str_in needle hay'
  end.

(** [bool(s)] *)
Definition nonempty (s : string) : bool :=
  match s with EmptyString => false | _ => true end.

(** A byte that continues a character of a UTF-8 text (binary 10xxxxxx). *)
Definition is_continuation (a : ascii) : bool :=
  (128 <=? nat_of_ascii a)%nat && (nat_of_ascii a <? 192)%nat.

(** [s[:n]] for [n >= 0]: the first [n] characters, each with the bytes
    that continue it. *)
Fixpoint take (n : nat) (s : string) : string :=
  match s with
  | EmptyString => EmptyString
  | String a s' =>
      if is_continuation a then String a (take n s')
      else match n with
           | O => EmptyString
           | S n' => String a (take n' s')
           end
  end.

End PyStr.

(** ** JSON values and Python dictionaries *)

#[warnings="-register-all"]
Inductive json : Type :=
| JNull
| JBool (b : bool)
| JInt (n : Z)
| JFloat (m e : Z)          (* the double m * 2^e *)
| JStr (s : string)
| JList (l : list json)
| JObj (o : gmap string json).

Abbreviation dict := (gmap string json).

(** The name of a value's Python type, as it appears in exception texts. *)
Definition type_name (v : json) : string :=
  match v with
  | JNull => "NoneType"
  | JBool _ => "bool"
  | JInt _ => "int"
  | JFloat _ _ => "float"
  | JStr _ => "str"
  | JList _ => "list"
  | JObj _ => "dict"
  end.

(** [bool(v)]: the truth value Python gives to [v] in [if], [not], [or]. *)
Definition truthy (v : json) : bool :=
  match v with
  | JNull => false
  | JBool b => b
  | JInt n => negb (n =? 0)%Z
  | JFloat m _ => negb (m =? 0)%Z
  | JStr s => PyStr.nonempty s
  | JList l => match l with [] => false | _ => true end
  | JObj o => bool_decide (o ≠ ∅)
  end.

(** [k in d] and [d.get(k, default)] *)
Definition has_key (k : string) (d : dict) : bool := bool_decide (is_Some (d !! k)).
Definition get_or (k : string) (dflt : json) (d : dict) : json := default dflt (d !! k).

(** ** Exceptions *)

Inductive exn : Type :=
| AttributeError (msg : string)
| TypeError (msg : string)
| NameError (msg : string)
| ValueError (msg : string).

(** [str(e)] *)
Definition exn_text (e : exn) : string :=
  match e with AttributeError m | TypeError m | NameError m | ValueError m => m end.

Inductive pyresult (A : Type) : Type :=
| Returns (a : A)
| Raises (e : exn).
Arguments Returns {A} a.
Arguments Raises {A} e.

Definition pybind {A B} (m : pyresult A) (k : A -> pyresult B) : pyresult B :=
  match m with
  | Returns a => k a
  | Raises e => Raises e
  end.

Declare Scope py_scope.
Delimit Scope py_scope with py.
Notation "x <- m ;; k" := (pybind m (fun x => k))
  (at level 100, m at next level, right associativity) : py_scope.

(** [v.lower()]: only [str] has the method. *)
Definition py_lower (v : json) : pyresult string :=
  match v with
  | JStr s => Returns (PyStr.lower s)
  | _ => Raises (AttributeError ("'" +:+ type_name v +:+ "' object has no attribute 'lower'"))
  end.

(** [needle in v] for a string [needle]: substring test on a [str], element
    test on a [list], key test on a [dict]; the other types are not
    containers (message text of CPython up to 3.13). *)
Definition py_str_in (needle : string) (v : json) : pyresult bool :=
  match v with
  | JStr s => Returns (PyStr.str_in needle s)
  | JList l =>
      Returns (existsb (fun x => match x with JStr s => String.eqb s needle | _ => false end) l)
  | JObj o => Returns (has_key needle o)
  | _ => Raises (TypeError ("argument of type '" +:+ type_name v +:+ "' is not iterable"))
  end.

(** [v[:3]]: lists and strings are sliced; a [dict] rejects the slice as a
    key (TypeError before CPython 3.12) and the scalars are not
    subscriptable. *)
Definition py_slice3 (v : json) : pyresult json :=
  match v with
  | JList l => Returns (JList (firstn 3 l))
  | JStr s => Returns (JStr (PyStr.take 3 s))
  | JObj _ => Raises (TypeError "unhashable type: 'slice'")
  | _ => Raises (TypeError ("'" +:+ type_name v +:+ "' object is not subscriptable"))
  end.

Definition dquote : string := String (ascii_of_nat 34) EmptyString.

(** [a + s] where [s] is a [str]: concatenation when [a] is a [str];
    [None + s] and the like raise. *)
Definition py_add_str (a : json) (s : string) : pyresult json :=
  match a with
  | JStr t => Returns (JStr (t +:+ s))
  | JList _ =>
      Raises (TypeError ("can only concatenate list (not " +:+ dquote +:+ "str" +:+ dquote +:+ ") to list"))
  | _ => Raises (TypeError ("unsupported operand type(s) for +: '" +:+ type_name a +:+ "' and 'str'"))
  end.

(** ** The outside world *)

(** What one attempt of the financial-data client (lines 57-62) ends in.
    A parsed body is a JSON object, which is what the provider sends; a
    body that parses to another JSON value (a string, an array) is outside
    this model, and so is what the callers do with it. *)
Inductive av_outcome : Type :=
| AvRequestException (text : string)  (* requests.exceptions.RequestException: timeout, connection, HTTP 4xx/5xx *)
| AvException (text : string)         (* any other Exception raised before the body is classified *)
| AvBody (data : dict).               (* response.json() *)

(** The response object of the generative model, as far as lines 122 to
    126 look at it. [content] is a protobuf message: it is true when one of
    its fields is set. [response.text] is the library's quick accessor,
    which is no part of this repository: it raises ValueError when the
    response has no candidate or the first candidate's content has no part.
    [text] is what it gives when there is a part, [text_error] the message
    of the ValueError when there is none. *)
Record content : Type := { role : string; parts : list string }.
Record candidate : Type := { cand_content : content }.
Record gen_response : Type := {
  text : string;
  text_error : string;
  candidates : list candidate
}.

(** [response.text] *)
Definition response_text (r : gen_response) : pyresult string :=
  match candidates r with
  | [] => Raises (ValueError (text_error r))
  | c :: _ =>
      match parts (cand_content c) with
      | [] => Raises (ValueError (text_error r))
      | _ :: _ => Returns (text r)
      end
  end.

(** What [chat.send_message] (lines 99-121) ends in. *)
Inductive gm_outcome : Type :=
| GmException (text : string)         (* an Exception raised by the model or the chat *)
| GmResponse (r : gen_response).

Abbreviation params := (gmap string string).

(** What the program does to the world, in order. *)
Inductive event : Type :=
| EvGet (p : params)                  (* requests.get(AV_API_BASE_URL, params=p, timeout=10) *)
| EvSend (prompt : string)            (* chat.send_message(prompt) *)
| EvSleep (seconds : Z).              (* time.sleep(seconds) *)

Abbreviation trace := (list event).

Definition is_attempt (ev : event) : bool :=
  match ev with EvSleep _ => false | _ => true end.

(** Number of outbound attempts recorded in a trace. *)
Definition attempts (w : trace) : nat := length (filter (fun ev => is_attempt ev = true) w).

(** Sleeps recorded in a trace, in order. *)
Definition sleeps (w : trace) : list Z :=
  omap (fun ev => match ev with EvSleep s => Some s | _ => None end) w.

(** The process environment: the two credentials read at start-up
    (lines 25-26; [os.environ.get] gives [None] or a string), and the
    providers, which answer the k-th outbound attempt of the run. *)
Record env : Type := {
  ALPHA_VANTAGE_API_KEY : option string;
  GEMINI_API_KEY : option string;
  requests_get : params -> nat -> av_outcome;
  send_message : string -> nat -> gm_outcome;
  (* the interpreter's rendering of a value that is not a string, as an
     f-string inserts it *)
  py_repr : json -> string
}.

(** [bool(key)] for a credential: [None] and the empty string are false. *)
Definition key_set (k : option string) : bool :=
  match k with Some s => PyStr.nonempty s | None => false end.

(** ** Backoff: [initial_delay * (2 ** i)] (lines 68, 80 and 133) *)

Definition max_retries : nat := 5.
Definition initial_delay : Z := 1.

Definition backoff_delay (d0 : Z) (i : nat) : Z := d0 * 2 ^ Z.of_nat i.

(** ** fetch_alpha_vantage_data (lines 45-84) *)

Definition err (msg : string) : dict := {[ "error" := JStr msg ]}.

Definition av_not_configured : dict :=
  err "Alpha Vantage API key is not configured in the server.".
Definition av_retries_exhausted : dict :=
  err "Max retries exceeded for Alpha Vantage API call due to rate limits or network issues.".
Definition av_unexpected (text : string) : dict :=
  err ("An unexpected error occurred during Alpha Vantage API call: " +:+ text).

(** What lines 65-77 decide for a parsed body: go round the loop again
    (after the sleep), or leave the function with a dictionary. *)
Inductive av_step : Type :=
| AvRetry
| AvReturn (d : dict).

Open Scope py_scope.

(** ["Information" in data and "rate limit" in data["Information"].lower()] *)
Definition information_rate_limited (data : dict) : pyresult bool :=
  match data !! "Information" with
  | Some v => t <- py_lower v ;; Returns (PyStr.str_in "rate limit" t)
  | None => Returns false
  end.

(** ["Note" in data and "Thank you for using Alpha Vantage" in data["Note"]] *)
Definition note_is_advisory (data : dict) : pyresult bool :=
  match data !! "Note" with
  | Some v => py_str_in "Thank you for using Alpha Vantage" v
  | None => Returns false
  end.

(** Lines 65-77. *)
Definition classify_body (data : dict) : pyresult av_step :=
  match data !! "Error Message" with
  | Some v =>
      t <- py_lower v ;;
      if PyStr.str_in "rate limit" t then Returns AvRetry
      else Returns (AvReturn {[ "error" := v ]})
  | None =>
      limited <- information_rate_limited data ;;
      if limited then Returns (AvReturn {[ "error" := get_or "Information" JNull data ]})
      else
        _ <- note_is_advisory data ;;
        Returns (AvReturn data)
  end.

Section Clients.

Variable E : env.

(** The loop [for i in range(max_retries)], over the indices still to
    run; [key] is the credential, known to be set. *)
Fixpoint av_attempts (key : string) (p : params) (idx : list nat) (w : trace)
  : dict * trace :=
  match idx with
  | [] => (av_retries_exhausted, w)
  | i :: rest =>
      let p := <[ "apikey" := key ]> p in
      let w1 := w ++ [EvGet p] in
      let retry := av_attempts key p rest (w1 ++ [EvSleep (backoff_delay initial_delay i)]) in
      match requests_get E p (attempts w) with
      | AvRequestException _ => retry
      | AvException text => (av_unexpected text, w1)
      | AvBody data =>
          match classify_body data with
          | Raises e => (av_unexpected (exn_text e), w1)
          | Returns AvRetry => retry
          | Returns (AvReturn d) => (d, w1)
          end
      end
  end.

Definition fetch_alpha_vantage_data (p : params) (w : trace) : dict * trace :=
  match ALPHA_VANTAGE_API_KEY E with
  | Some key =>
      if PyStr.nonempty key then av_attempts key p (seq 0 max_retries) w
      else (av_not_configured, w)
  | None => (av_not_configured, w)
  end.

End Clients.

(** ** generate_gemini_content (lines 87-138) *)

Definition gm_not_configured : dict :=
  err "Gemini API key is not configured in the server.".
Definition gm_retries_exhausted : dict :=
  err "Max retries exceeded for Gemini API call due to rate limits or network issues.".
Definition gm_malformed : dict :=
  err "Gemini API response was empty or malformed.".
Definition gm_unexpected (text : string) : dict :=
  err ("An unexpected error occurred during AI content generation: " +:+ text).

(** Truth value of a protobuf [Content] message: some field is set. *)
Definition content_set (c : content) : bool :=
  PyStr.nonempty (role c) || match parts c with [] => false | _ => true end.

(** Line 125: [response.candidates and response.candidates[0].content and
    response.candidates[0].content.parts]. *)
Definition has_content (r : gen_response) : bool :=
  match candidates r with
  | [] => false
  | c :: _ =>
      content_set (cand_content c) &&
      match parts (cand_content c) with [] => false | _ => true end
  end.

(** The name [retries] of line 131 is bound nowhere in the module: reading
    it raises. *)
Definition read_retries : pyresult Z :=
  Raises (NameError "name 'retries' is not defined").

(** Line 131: ["quota" in str(e).lower() or "rate limit" in str(e).lower()
    and retries > 0]; [and] binds tighter than [or], and both operators
    evaluate their right operand only when the left one does not decide. *)
Definition should_retry (text : string) : pyresult bool :=
  if PyStr.str_in "quota" (PyStr.lower text) then Returns true
  else if PyStr.str_in "rate limit" (PyStr.lower text) then
    retries <- read_retries ;; Returns (0 <? retries)%Z
  else Returns false.

(** Lines 122-128, for the answer of [chat.send_message]: the text of the
    exception that leaves the [try] block, or the dictionary returned from
    it. The diagnostic print of line 122 reads [response.text] before line
    125 looks at the structure. *)
Definition try_block (o : gm_outcome) : string + dict :=
  match o with
  | GmException text => inl text
  | GmResponse r =>
      match response_text r with
      | Raises e => inl (exn_text e)
      | Returns t =>
          inr (if has_content r then {[ "success" := JStr t ]} else gm_malformed)
      end
  end.

Section GenerativeClient.

Variable E : env.

(** The loop [for i in range(max_retries)] of line 97. *)
Fixpoint gm_attempts (prompt_text : string) (idx : list nat) (w : trace)
  : pyresult dict * trace :=
  match idx with
  | [] => (Returns gm_retries_exhausted, w)
  | i :: rest =>
      let w1 := w ++ [EvSend prompt_text] in
      match try_block (send_message E prompt_text (attempts w)) with
      | inr d => (Returns d, w1)
      | inl e =>
          match should_retry e with
          | Raises x => (Raises x, w1)
          | Returns true =>
              gm_attempts prompt_text rest (w1 ++ [EvSleep (backoff_delay initial_delay i)])
          | Returns false => (Returns (gm_unexpected e), w1)
          end
      end
  end.

Definition generate_gemini_content (prompt_text : string) (w : trace)
  : pyresult dict * trace :=
  if key_set (GEMINI_API_KEY E) then gm_attempts prompt_text (seq 0 max_retries) w
  else (Returns gm_not_configured, w).

End GenerativeClient.

(** ** get_full_stock_report (lines 246-301) *)

(** The dictionary [report_data] of line 252: its six keys are fixed. *)
Record report : Type := {
  symbol : string;
  global_quote : json;
  overview : json;
  income_statement : json;
  earnings : dict;
  error : json
}.

(** A Flask response: [jsonify(body), status]. *)
Record response : Type := { body : json; status : nat }.

Definition jsonify_report (r : report) : json :=
  JObj (<[ "symbol" := JStr (symbol r) ]>
       (<[ "global_quote" := global_quote r ]>
       (<[ "overview" := overview r ]>
       (<[ "income_statement" := income_statement r ]>
       (<[ "earnings" := JObj (earnings r) ]>
       (<[ "error" := error r ]> ∅)))))).

(** The characters that [re.sub(r'[^a-zA-Z0-9.\-_]', '', ticker)] keeps. *)
Definition ticker_char (a : ascii) : bool :=
  PyStr.is_lower a || PyStr.is_upper a || PyStr.is_digit a ||
  Ascii.eqb a "." || Ascii.eqb a "-" || Ascii.eqb a "_".

Definition sanitize (ticker : string) : string :=
  PyStr.upper (PyStr.filter_chars ticker_char ticker).

(** The handler's store: the trace of the world and [report_data], which
    is mutated in place. A statement ends normally or by raising; the store
    is what it is at that point. *)
Record store : Type := { log : trace; report_data : report }.

Definition M (A : Type) : Type := store -> pyresult A * store.

Definition ret {A} (a : A) : M A := fun st => (Returns a, st).

Definition bind {A B} (m : M A) (k : A -> M B) : M B :=
  fun st =>
    match m st with
    | (Returns a, st') => k a st'
    | (Raises e, st') => (Raises e, st')
    end.

Definition lift {A} (r : pyresult A) : M A := fun st => (r, st).

Definition get_report : M report := fun st => (Returns (report_data st), st).

Definition update_report (f : report -> report) : M unit :=
  fun st => (Returns tt, {| log := log st; report_data := f (report_data st) |}).

Declare Scope handler_scope.
Delimit Scope handler_scope with handler.
Notation "x <- m ;; k" := (bind m (fun x => k))
  (at level 100, m at next level, right associativity) : handler_scope.
Notation "m ;;; k" := (bind m (fun _ => k))
  (at level 100, right associativity) : handler_scope.

Definition set_global_quote (v : json) (r : report) : report :=
  {| symbol := symbol r; global_quote := v; overview := overview r;
     income_statement := income_statement r; earnings := earnings r; error := error r |}.
Definition set_overview (v : json) (r : report) : report :=
  {| symbol := symbol r; global_quote := global_quote r; overview := v;
     income_statement := income_statement r; earnings := earnings r; error := error r |}.
Definition set_income_statement (v : json) (r : report) : report :=
  {| symbol := symbol r; global_quote := global_quote r; overview := overview r;
     income_statement := v; earnings := earnings r; error := error r |}.
Definition set_earnings (v : dict) (r : report) : report :=
  {| symbol := symbol r; global_quote := global_quote r; overview := overview r;
     income_statement := income_statement r; earnings := v; error := error r |}.
Definition set_error (v : json) (r : report) : report :=
  {| symbol := symbol r; global_quote := global_quote r; overview := overview r;
     income_statement := income_statement r; earnings := earnings r; error := v |}.

Definition not_found_message : string :=
  "Stock ticker not found or no data available from Alpha Vantage.".

Section Aggregator.

Variable E : env.

(** [str(v)] inside an f-string. *)
Definition py_str (v : json) : string :=
  match v with JStr s => s | _ => py_repr E v end.

(** A call of [fetch_alpha_vantage_data] from the handler. *)
Definition call_fetch (p : params) : M dict :=
  fun st =>
    let '(d, w) := fetch_alpha_vantage_data E p (log st) in
    (Returns d, {| log := w; report_data := report_data st |}).

(** [report_data['error'] = report_data.get('error', '') + f"<label>:
    {data['error']}. "]. The key ['error'] is always present, so [get]
    never falls back on its default. *)
Definition append_error (label : string) (data : dict) : M unit :=
  (r <- get_report ;;
   v <- lift (py_add_str (error r) (label +:+ py_str (get_or "error" JNull data) +:+ ". ")) ;;
   update_report (set_error v))%handler.

(** Lines 262-267. *)
Definition fetch_quote (ticker : string) : M unit :=
  (quote_data <- call_fetch {[ "function" := "GLOBAL_QUOTE"; "symbol" := ticker ]} ;;
   if has_key "error" quote_data then append_error "Quote Error: " quote_data
   else update_report (set_global_quote (get_or "Global Quote" (JObj ∅) quote_data)))%handler.

(** Lines 270-275. *)
Definition fetch_overview (ticker : string) : M unit :=
  (overview_data <- call_fetch {[ "function" := "OVERVIEW"; "symbol" := ticker ]} ;;
   if has_key "error" overview_data then append_error "Overview Error: " overview_data
   else update_report (set_overview (JObj overview_data)))%handler.

(** Lines 278-283. *)
Definition fetch_income_statement (ticker : string) : M unit :=
  (income_data <- call_fetch {[ "function" := "INCOME_STATEMENT"; "symbol" := ticker ]} ;;
   if has_key "error" income_data then append_error "Income Statement Error: " income_data
   else
     v <- lift (py_slice3 (get_or "annualReports" (JList []) income_data)) ;;
     update_report (set_income_statement v))%handler.

(** Lines 286-291. *)
Definition fetch_earnings (ticker : string) : M unit :=
  (earnings_data <- call_fetch {[ "function" := "EARNINGS"; "symbol" := ticker ]} ;;
   if has_key "error" earnings_data then append_error "Earnings Error: " earnings_data
   else
     v <- lift (py_slice3 (get_or "annualEarnings" (JList []) earnings_data)) ;;
     update_report (fun r => set_earnings (<[ "annualReports" := v ]> (earnings r)) r))%handler.

(** Lines 294-301. *)
Definition respond : M response :=
  (r <- get_report ;;
   if negb (truthy (global_quote r)) && negb (truthy (overview r)) then
     let final_error := error r in
     let final_error :=
       if negb (truthy final_error) then JStr not_found_message else final_error in
     ret {| body := JObj {[ "error" := if truthy (error r) then error r else final_error ]};
            status := 404 |}
   else ret {| body := jsonify_report r; status := 200 |})%handler.

Definition initial_report (sanitized_ticker : string) : report :=
  {| symbol := sanitized_ticker; global_quote := JObj ∅; overview := JObj ∅;
     income_statement := JList []; earnings := ∅; error := JNull |}.

(** The handler. The last component is [report_data] as the handler
    leaves it, [None] when it returns before line 252. *)
Definition get_full_stock_report (ticker : string) (w : trace)
  : pyresult response * trace * option report :=
  let sanitized_ticker := sanitize ticker in
  if negb (PyStr.nonempty sanitized_ticker) then
    (Returns {| body := JObj {[ "error" := JStr "Invalid ticker symbol provided." ]};
                status := 400 |}, w, None)
  else
    let '(res, st) :=
      (fetch_quote sanitized_ticker ;;;
       fetch_overview sanitized_ticker ;;;
       fetch_income_statement sanitized_ticker ;;;
       fetch_earnings sanitized_ticker ;;;
       respond)%handler
        {| log := w; report_data := initial_report sanitized_ticker |} in
    (res, log st, Some (report_data st)).

End Aggregator.

(** ** The single-call routes (lines 197-243) *)

(** [get_overview], [get_global_quote], [get_income_statement],
    [get_earnings], [get_balance_sheet] and [get_cash_flow] have one body;
    only the "function" of the request differs. The ticker goes into the
    request as it comes. On the dictionaries that the client returns here,
    ['error' in data] is a key test and [data['error']] finds the key. *)
Definition proxy_route (E : env) (function ticker : string) (w : trace) : response * trace :=
  let '(data, w') :=
    fetch_alpha_vantage_data E {[ "function" := function; "symbol" := ticker ]} w in
  if has_key "error" data then
    ({| body := JObj {[ "error" := get_or "error" JNull data ]}; status := 500 |}, w')
  else ({| body := JObj data; status := 200 |}, w').

Definition get_overview (E : env) : string -> trace -> response * trace :=
  proxy_route E "OVERVIEW".
Definition get_global_quote (E : env) : string -> trace -> response * trace :=
  proxy_route E "GLOBAL_QUOTE".
Definition get_income_statement (E : env) : string -> trace -> response * trace :=
  proxy_route E "INCOME_STATEMENT".
Definition get_earnings (E : env) : string -> trace -> response * trace :=
  proxy_route E "EARNINGS".
Definition get_balance_sheet (E : env) : string -> trace -> response * trace :=
  proxy_route E "BALANCE_SHEET".
Definition get_cash_flow (E : env) : string -> trace -> response * trace :=
  proxy_route E "CASH_FLOW".

(** ** search_stock_symbol (lines 149-193) *)

(** [re.sub(r'[^a-zA-Z0-9.\-_]', '', keyword)]: the keyword keeps its case. *)
Definition sanitize_keyword (keyword : string) : string :=
  PyStr.filter_chars ticker_char keyword.

(** The values a [for] loop draws from [v]: the elements of a list, the
    characters of a string, the keys of a dictionary (all of them strings,
    on which the loop body below fails alike, so that their order does not
    matter). *)
Definition py_iter (v : json) : pyresult (list json) :=
  match v with
  | JList l => Returns l
  | JStr s => Returns (map (fun a => JStr (String a EmptyString)) (list_ascii_of_string s))
  | JObj o => Returns (map (fun kv => JStr (fst kv)) (map_to_list o))
  | _ => Raises (TypeError ("'" +:+ type_name v +:+ "' object is not iterable"))
  end.

(** [v.get(k)]: only a dictionary has the method; a missing key gives
    [None]. *)
Definition py_get (v : json) (k : string) : pyresult json :=
  match v with
  | JObj o => Returns (get_or k JNull o)
  | _ => Raises (AttributeError ("'" +:+ type_name v +:+ "' object has no attribute 'get'"))
  end.

(** [v != 'N/A'] *)
Definition is_not_na (v : json) : bool :=
  match v with JStr s => negb (String.eqb s "N/A") | _ => true end.

(** The body of the loop of line 169: the option built from one match, or
    nothing when the symbol is empty or "N/A". *)
Definition option_of_match (m : json) : pyresult (option json) :=
  symbol <- py_get m "1. symbol" ;;
  name <- py_get m "2. name" ;;
  region <- py_get m "4. region" ;;
  currency <- py_get m "8. currency" ;;
  if truthy symbol && is_not_na symbol then
    type <- py_get m "3. type" ;;
    Returns (Some (JObj (<[ "symbol" := symbol ]>
                        (<[ "name" := name ]>
                        (<[ "type" := type ]>
                        (<[ "region" := region ]>
                        (<[ "currency" := currency ]> ∅)))))))
  else Returns None.

(** The loop of lines 168-182, [options] being the list built so far. *)
Fixpoint collect_options (matches options : list json) : pyresult (list json) :=
  match matches with
  | [] => Returns options
  | m :: rest =>
      o <- option_of_match m ;;
      collect_options rest (match o with Some x => options ++ [x] | None => options end)
  end.

Definition error_response (code : nat) (v : json) : response :=
  {| body := JObj {[ "error" := v ]}; status := code |}.

Definition search_stock_symbol (E : env) (keyword : string) (w : trace)
  : pyresult response * trace :=
  let sanitized_keyword := sanitize_keyword keyword in
  if negb (PyStr.nonempty sanitized_keyword) then
    (Returns (error_response 400 (JStr "Invalid search keyword provided.")), w)
  else
    let '(search_data, w') :=
      fetch_alpha_vantage_data E
        {[ "function" := "SYMBOL_SEARCH"; "keywords" := sanitized_keyword ]} w in
    if has_key "error" search_data then
      (Returns (error_response 500 (get_or "error" JNull search_data)), w')
    else
      let best_matches := get_or "bestMatches" (JList []) search_data in
      (matches <- py_iter best_matches ;;
       options <- collect_options matches [] ;;
       if negb (truthy (JList options)) then
         if negb (truthy (get_or "error" JNull search_data)) then
           Returns (error_response 404 (JStr "No matching symbols found for your search."))
         else Returns (error_response 500 (get_or "error" JNull search_data))
       else Returns {| body := JList options; status := 200 |},
       w').

(** ** generate_report_sections (lines 305-322) *)

(** The handler subscripts the request body, which can fail in two more
    ways than the code above. *)
Inductive route_exn : Type :=
| KeyError (key : json)               (* d[key] on a dictionary without that key *)
| IndexError (msg : string)           (* v[0] on an empty sequence *)
| Builtin (e : exn).

Inductive route_result (A : Type) : Type :=
| Value (a : A)
| Failed (e : route_exn).
Arguments Value {A} a.
Arguments Failed {A} e.

Definition of_py {A} (r : pyresult A) : route_result A :=
  match r with
  | Returns a => Value a
  | Raises e => Failed (Builtin e)
  end.

Definition route_bind {A B} (m : route_result A) (k : A -> route_result B) : route_result B :=
  match m with
  | Value a => k a
  | Failed e => Failed e
  end.

Declare Scope route_scope.
Delimit Scope route_scope with route.
Notation "x <- m ;; k" := (route_bind m (fun x => k))
  (at level 100, m at next level, right associativity) : route_scope.

(** [v[0]] *)
Definition py_first (v : json) : route_result json :=
  match v with
  | JList (x :: _) => Value x
  | JList [] => Failed (IndexError "list index out of range")
  | JStr (String a _) => Value (JStr (String a EmptyString))
  | JStr EmptyString => Failed (IndexError "string index out of range")
  | JObj _ => Failed (KeyError (JInt 0))
  | _ => Failed (Builtin (TypeError ("'" +:+ type_name v +:+ "' object is not subscriptable")))
  end.

(** [v[k]] for a string [k] (message texts of CPython 3.11 and later) *)
Definition py_item (v : json) (k : string) : route_result json :=
  match v with
  | JObj o =>
      match o !! k with
      | Some x => Value x
      | None => Failed (KeyError (JStr k))
      end
  | JStr _ => Failed (Builtin (TypeError "string indices must be integers, not 'str'"))
  | JList _ => Failed (Builtin (TypeError "list indices must be integers or slices, not str"))
  | _ => Failed (Builtin (TypeError ("'" +:+ type_name v +:+ "' object is not subscriptable")))
  end.

(** Lines 310-311: [data.get('contents')[0]['parts'][0]['text'] if
    data.get('contents') and data['contents'][0].get('parts') else None]. *)
Definition prompt_from_frontend (data : json) : route_result json :=
  (contents <- of_py (py_get data "contents") ;;
   if truthy contents then
     contents' <- py_item data "contents" ;;
     first <- py_first contents' ;;
     parts <- of_py (py_get first "parts") ;;
     if truthy parts then
       contents'' <- of_py (py_get data "contents") ;;
       first' <- py_first contents'' ;;
       parts' <- py_item first' "parts" ;;
       part <- py_first parts' ;;
       py_item part "text"
     else Value JNull
   else Value JNull)%route.

Section GenerateRoute.

Variable E : env.

(** What [generate_gemini_content] does with a prompt that is not a
    string; lines 99-122 hand such a prompt to the library. *)
Variable generate_other : json -> trace -> pyresult dict * trace.

Definition generate_report_sections (data : json) (w : trace)
  : route_result response * trace :=
  match prompt_from_frontend data with
  | Failed e => (Failed e, w)
  | Value prompt =>
      if negb (truthy prompt) then
        (Value (error_response 400 (JStr "No prompt provided for AI generation.")), w)
      else
        let '(ai, w') :=
          match prompt with
          | JStr s => generate_gemini_content E s w
          | _ => generate_other prompt w
          end in
        match ai with
        | Raises e => (Failed (Builtin e), w')
        | Returns ai_response =>
            if has_key "error" ai_response then
              (Value (error_response 500 (get_or "error" JNull ai_response)), w')
            else
              (v <- py_item (JObj ai_response) "success" ;;
               Value {| body := JObj {[ "generated_content" := v ]}; status := 200 |},
               w')%route
        end
  end.

End GenerateRoute.

(** * Vocabulary of the properties *)

(** ** Stub providers and what is asked of a provider *)

(** A provider that gives the same answer to every attempt, with one
    credential for both clients. *)
Definition stub_env (k : option string) (av : av_outcome) (gm : gm_outcome) : env :=
  {| ALPHA_VANTAGE_API_KEY := k; GEMINI_API_KEY := k;
     requests_get := fun _ _ => av; send_message := fun _ _ => gm;
     py_repr := fun _ => "" |}.

(** The attempt ends in a parsed body whose ["Error Message"] is a text
    that mentions a rate limit, in any letter case. *)
Definition rate_limited_body (o : av_outcome) : bool :=
  match o with
  | AvBody data =>
      match data !! "Error Message" with
      | Some (JStr t) => PyStr.str_in "rate limit" (PyStr.lower t)
      | _ => false
      end
  | _ => false
  end.

(** The events of one attempt that is retried. *)
Definition retried_attempt (ev : event) (i : nat) : trace :=
  [ev; EvSleep (backoff_delay initial_delay i)].

(** ** The handler's store *)

(** The exception of [None + "..."]. *)
Definition none_plus_str : exn :=
  TypeError "unsupported operand type(s) for +: 'NoneType' and 'str'".

(** A statement leaves a part [f] of [report_data] alone, however it ends. *)
Definition keeps {A X} (f : report -> X) (m : M A) : Prop :=
  forall st, f (report_data (snd (m st))) = f (report_data st).

(** The request dictionaries of lines 262, 270, 278 and 286. *)
Definition quote_params (s : string) : params :=
  {[ "function" := "GLOBAL_QUOTE"; "symbol" := s ]}.
Definition overview_params (s : string) : params :=
  {[ "function" := "OVERVIEW"; "symbol" := s ]}.
Definition income_params (s : string) : params :=
  {[ "function" := "INCOME_STATEMENT"; "symbol" := s ]}.
Definition earnings_params (s : string) : params :=
  {[ "function" := "EARNINGS"; "symbol" := s ]}.

(** The store in which the handler starts its first sub-call. *)
Definition initial_store (ticker : string) (w : trace) : store :=
  {| log := w; report_data := initial_report (sanitize ticker) |}.

(** A statement that ends normally leaves the narrative [None]. *)
Definition narrative_stays_none {A} (m : M A) : Prop :=
  forall st a st',
    error (report_data st) = JNull -> m st = (Returns a, st') ->
    error (report_data st') = JNull.

(** ** A sample provider *)

(** An annual report, reduced to its date. *)
Definition annual (year : string) : json := JObj {[ "fiscalDateEnding" := JStr year ]}.

(** It answers by the "function" of the request; the functions listed in
    [failing] get a body with an "Error Message" that is no rate limit. *)
Definition sample_get (failing : list string) (p : params) (k : nat) : av_outcome :=
  match p !! "function" with
  | Some f =>
      if bool_decide (f ∈ failing) then AvBody {[ "Error Message" := JStr "Invalid API call." ]}
      else
        match f with
        | "GLOBAL_QUOTE" => AvBody {[ "Global Quote" := JObj {[ "05. price" := JStr "172.50" ]} ]}
        | "OVERVIEW" => AvBody {[ "Symbol" := JStr "IBM" ]}
        | "INCOME_STATEMENT" =>
            AvBody {[ "annualReports" := JList (map annual ["2023"; "2022"; "2021"; "2020"; "2019"]) ]}
        | "EARNINGS" =>
            AvBody {[ "annualEarnings" := JList (map annual ["2023"; "2022"; "2021"; "2020"]) ]}
        | _ => AvBody ∅
        end
  | None => AvException "no function"
  end.

(** Both credentials set; the generative model answers every prompt with
    a rate-limit exception. *)
Definition sample_env (failing : list string) : env :=
  {| ALPHA_VANTAGE_API_KEY := Some "demo"; GEMINI_API_KEY := Some "demo";
     requests_get := sample_get failing;
     send_message := fun _ _ => GmException "429 Rate limit exceeded";
     py_repr := fun _ => "" |}.

(** What the accessor says of a response without a part. *)
Definition no_part_message : string :=
  "Invalid operation: The `response.text` quick accessor requires the response to contain a valid `Part`, but none were returned.".

(** A response whose only candidate has a content without parts. *)
Definition empty_response : gen_response :=
  {| text := ""; text_error := no_part_message;
     candidates := [ {| cand_content := {| role := "model"; parts := [] |} |} ] |}.

(** A response without candidates, as for a blocked prompt. *)
Definition blocked_response : gen_response :=
  {| text := ""; text_error := no_part_message; candidates := [] |}.

(** A process with the two credentials given one by one, and providers
    that answer every attempt with a network error and with a quota
    error. *)
Definition keyed_env (av_key gm_key : option string) : env :=
  {| ALPHA_VANTAGE_API_KEY := av_key; GEMINI_API_KEY := gm_key;
     requests_get := fun _ _ => AvRequestException "timed out";
     send_message := fun _ _ => GmException "429 Quota exceeded for this model.";
     py_repr := fun _ => "" |}.

(** ** Runs of the retry loops *)

(** The attempt ends in a way the financial-data client retries: a
    [RequestException], or a body whose "Error Message" mentions a rate
    limit. *)
Definition transient_outcome (o : av_outcome) : bool :=
  match o with
  | AvRequestException _ => true
  | _ => rate_limited_body o
  end.

(** The attempt ends in an exception (of the model, the chat or the text
    accessor) whose text mentions a quota. *)
Definition quota_exception (o : gm_outcome) : bool :=
  match try_block o with
  | inl t => PyStr.str_in "quota" (PyStr.lower t)
  | inr _ => false
  end.

(** The attempt ends in an exception whose text mentions a rate limit and
    no quota. *)
Definition rate_limit_exception (o : gm_outcome) : bool :=
  match try_block o with
  | inl t =>
      negb (PyStr.str_in "quota" (PyStr.lower t)) &&
      PyStr.str_in "rate limit" (PyStr.lower t)
  | inr _ => false
  end.

(** Seconds slept in a trace, in all. *)
Definition total_sleep (w : trace) : Z := foldr Z.add 0%Z (sleeps w).

(** The first [k] attempts of a loop, all retried. *)
Definition retried_attempts (ev : event) (first k : nat) : trace :=
  concat (map (retried_attempt ev) (seq first k)).

(** ** Sanitised text *)

(** The characters a sanitised ticker can hold: the allowed ones, minus the
    lower-case letters. *)
Definition upper_ticker_char (a : ascii) : bool :=
  PyStr.is_upper a || PyStr.is_digit a ||
  Ascii.eqb a "." || Ascii.eqb a "-" || Ascii.eqb a "_".

(** Every character of [s] passes [f]. *)
Fixpoint all_chars (f : ascii -> bool) (s : string) : bool :=
  match s with
  | EmptyString => true
  | String a s' => f a && all_chars f s'
  end.

(** ** Search options *)

(** An option of the search answer: a dictionary of exactly the five keys,
    whose symbol is true and is not "N/A". *)
Definition valid_option (o : json) : Prop :=
  exists (d : dict) (v : json),
    o = JObj d /\ d !! "symbol" = Some v /\ truthy v = true /\ v <> JStr "N/A"
    /\ dom d = ({[ "symbol"; "name"; "type"; "region"; "currency" ]} : gset string).

(** The option that a match gives when the match is a dictionary: its five
    fields under their new names, [None] standing for a missing one; no
    option when the symbol is missing, empty or "N/A". *)
Definition match_option (m : dict) : option json :=
  let symbol := get_or "1. symbol" JNull m in
  if truthy symbol && is_not_na symbol then
    Some (JObj (<[ "symbol" := symbol ]>
               (<[ "name" := get_or "2. name" JNull m ]>
               (<[ "type" := get_or "3. type" JNull m ]>
               (<[ "region" := get_or "4. region" JNull m ]>
               (<[ "currency" := get_or "8. currency" JNull m ]> ∅))))))
  else None.

(** The request of a search and of a single-call route. *)
Definition search_params (keyword : string) : params :=
  {[ "function" := "SYMBOL_SEARCH"; "keywords" := keyword ]}.
Definition route_params (function ticker : string) : params :=
  {[ "function" := function; "symbol" := ticker ]}.

Definition invalid_keyword_response : response :=
  error_response 400 (JStr "Invalid search keyword provided.").
Definition no_match_response : response :=
  error_response 404 (JStr "No matching symbols found for your search.").

(** ** Cost of the handler *)

(** A statement adds to the measure [mu] of the trace, and at most [b]. *)
Definition bounded_by {A} (mu : trace -> Z) (b : Z) (m : M A) : Prop :=
  forall st, (mu (log st) <= mu (log (snd (m st))) <= mu (log st) + b)%Z.


Definition invalid_ticker_response : response :=
  error_response 400 (JStr "Invalid ticker symbol provided.").
Definition not_found_response : response :=
  {| body := JObj (err not_found_message); status := 404 |}.

(** ** Generation requests *)

Definition no_prompt_response : response :=
  error_response 400 (JStr "No prompt provided for AI generation.").

(** The body that the front end posts: one content with one part, the
    prompt. *)
Definition prompt_payload (prompt : string) : json :=
  JObj {[ "contents" := JList [JObj {[ "parts" := JList [JObj {[ "text" := JStr prompt ]}] ]}] ]}.

(** A provider for the examples that fails [n] times in a way that is
    retried (a time-out, then a rate-limited body, in turn) and then sends
    [data]. *)
Definition flaky_get (n : nat) (data : dict) (p : params) (k : nat) : av_outcome :=
  if (k <? n)%nat then
    if Nat.even k then AvRequestException "Read timed out."
    else AvBody {[ "Error Message" := JStr "API rate limit reached." ]}
  else AvBody data.

(** A model for the examples that is out of quota [n] times and then
    answers [r]. *)
Definition flaky_send (n : nat) (r : gen_response) (prompt : string) (k : nat) : gm_outcome :=
  if (k <? n)%nat then GmException "429 Quota exceeded for this model." else GmResponse r.

Definition flaky_env (n : nat) (data : dict) (r : gen_response) : env :=
  {| ALPHA_VANTAGE_API_KEY := Some "demo"; GEMINI_API_KEY := Some "demo";
     requests_get := flaky_get n data; send_message := flaky_send n r;
     py_repr := fun _ => "" |}.

(** A response with one candidate of one part. *)
Definition text_response (t : string) : gen_response :=
  {| text := t; text_error := no_part_message;
     candidates := [ {| cand_content := {| role := "model"; parts := [t] |} |} ] |}.

(** A match of the symbol search, as the provider sends it. *)
Definition sample_match (symbol name : string) : dict :=
  {[ "1. symbol" := JStr symbol; "2. name" := JStr name; "3. type" := JStr "Equity";
     "4. region" := JStr "United States"; "8. currency" := JStr "USD" ]}.

(** A provider that answers every request with the matches [best]. *)
Definition search_env (best : json) : env :=
  stub_env (Some "demo") (AvBody {[ "bestMatches" := best ]}) (GmException "").

(** * Properties *)

(** ** Facts about traces *)

Lemma attempts_app (w1 w2 : trace) : attempts (w1 ++ w2) = (attempts w1 + attempts w2)%nat.
Proof. unfold attempts. by rewrite filter_app, length_app. Qed.

Lemma sleeps_app (w1 w2 : trace) : sleeps (w1 ++ w2) = sleeps w1 ++ sleeps w2.
Proof. unfold sleeps. apply omap_app. Qed.

(** ** The backoff delay *)

Lemma backoff_delay_base (i : nat) : backoff_delay initial_delay i = (2 ^ Z.of_nat i)%Z.
Proof. unfold backoff_delay, initial_delay. lia. Qed.

Lemma backoff_delay_lt (d0 : Z) (a b : nat) :
  (0 < d0)%Z -> (a < b)%nat -> (backoff_delay d0 a < backoff_delay d0 b)%Z.
Proof.
  intros Hd Hab. unfold backoff_delay.
  apply Z.mul_lt_mono_pos_l; [exact Hd |].
  apply Z.pow_lt_mono_r; lia.
Qed.

(** ** The financial-data client, one attempt at a time *)

Section AvSteps.

Variables (E : env) (key : string) (p : params) (i : nat) (rest : list nat) (w : trace).

Local Abbreviation q := (<[ "apikey" := key ]> p).

Lemma av_attempts_rate_limited :
  rate_limited_body (requests_get E q (attempts w)) = true ->
  av_attempts E key p (i :: rest) w
  = av_attempts E key q rest (w ++ retried_attempt (EvGet q) i).
Proof.
  intros H. cbn [av_attempts].
  destruct (requests_get E q (attempts w)) as [t|t|data]; try discriminate.
  unfold rate_limited_body in H. unfold classify_body.
  destruct (data !! "Error Message") as [[| | | |t| |]|]; try discriminate.
  cbn. rewrite H. unfold retried_attempt. by rewrite <- app_assoc.
Qed.

Lemma av_attempts_network_error (t : string) :
  requests_get E q (attempts w) = AvRequestException t ->
  av_attempts E key p (i :: rest) w
  = av_attempts E key q rest (w ++ retried_attempt (EvGet q) i).
Proof.
  intros H. cbn [av_attempts]. rewrite H.
  unfold retried_attempt. by rewrite <- app_assoc.
Qed.

Lemma av_attempts_body (data : dict) (d : dict) :
  requests_get E q (attempts w) = AvBody data ->
  classify_body data = Returns (AvReturn d) ->
  av_attempts E key p (i :: rest) w = (d, w ++ [EvGet q]).
Proof. intros H Hc. cbn [av_attempts]. by rewrite H, Hc. Qed.

End AvSteps.

Lemma apikey_idem (key : string) (p : params) :
  <[ "apikey" := key ]> (<[ "apikey" := key ]> p) = <[ "apikey" := key ]> p.
Proof. apply insert_insert_eq. Qed.

(** All five attempts are retried: the loop runs [range(max_retries)] out. *)
Lemma av_attempts_all_rate_limited (E : env) (key : string) (p : params) :
  (forall q k, rate_limited_body (requests_get E q k) = true) ->
  forall (idx : list nat) (w : trace),
    av_attempts E key (<[ "apikey" := key ]> p) idx w
    = (av_retries_exhausted,
       w ++ concat (map (retried_attempt (EvGet (<[ "apikey" := key ]> p))) idx)).
Proof.
  intros H idx. induction idx as [|i rest IH]; intros w.
  - cbn. by rewrite app_nil_r.
  - rewrite av_attempts_rate_limited by apply H.
    rewrite apikey_idem, IH. cbn [map concat]. by rewrite <- app_assoc.
Qed.

(** C1. When every attempt of the financial-data client ends in a parsed
    body whose "Error Message" mentions a rate limit (in any letter case),
    the client makes the five attempts of [range(max_retries)], sleeps the
    backoff delay after each of them, and returns the max-retries-exceeded
    error. *)
Theorem av_rate_limit_exhausts_retries (E : env) (key : string) (p : params) (w : trace) :
  ALPHA_VANTAGE_API_KEY E = Some key ->
  PyStr.nonempty key = true ->
  (forall q k, rate_limited_body (requests_get E q k) = true) ->
  let q := <[ "apikey" := key ]> p in
  fetch_alpha_vantage_data E p w
  = (av_retries_exhausted,
     w ++ [EvGet q; EvSleep 1; EvGet q; EvSleep 2; EvGet q; EvSleep 4;
           EvGet q; EvSleep 8; EvGet q; EvSleep 16])
  /\ attempts (snd (fetch_alpha_vantage_data E p w)) = (attempts w + max_retries)%nat
  /\ sleeps (snd (fetch_alpha_vantage_data E p w))
     = sleeps w ++ map (backoff_delay initial_delay) (seq 0 max_retries).
Proof.
  intros Hkey Hset H q.
  assert (Hrun : fetch_alpha_vantage_data E p w
                 = (av_retries_exhausted,
                    w ++ [EvGet q; EvSleep 1; EvGet q; EvSleep 2; EvGet q; EvSleep 4;
                          EvGet q; EvSleep 8; EvGet q; EvSleep 16])).
  { unfold fetch_alpha_vantage_data. rewrite Hkey, Hset.
    change (seq 0 max_retries) with (0 :: seq 1 4)%nat.
    rewrite av_attempts_rate_limited by apply H.
    rewrite av_attempts_all_rate_limited by exact H.
    rewrite <- app_assoc. reflexivity. }
  rewrite Hrun. cbn [snd]. repeat split.
  - rewrite attempts_app. reflexivity.
  - rewrite sleeps_app. reflexivity.
Qed.

(** C4. For an attempt index a below 5 the delay slept before the next
    retry is base * 2^a with base 1, it grows strictly with a, and both
    clients sleep exactly this delay after their a-th attempt when the
    failure is one they retry. *)
Theorem backoff_delay_exponential
  (a b : nat) (key : string) (p : params) (prompt net_text quota_text : string) :
  (a < max_retries)%nat ->
  (a < b)%nat ->
  PyStr.nonempty key = true ->
  PyStr.str_in "quota" (PyStr.lower quota_text) = true ->
  backoff_delay initial_delay a = (1 * 2 ^ Z.of_nat a)%Z
  /\ (backoff_delay initial_delay a < backoff_delay initial_delay b)%Z
  /\ sleeps (snd (fetch_alpha_vantage_data
                    (stub_env (Some key) (AvRequestException net_text) (GmException quota_text))
                    p [])) !! a
     = Some (backoff_delay initial_delay a)
  /\ sleeps (snd (generate_gemini_content
                    (stub_env (Some key) (AvRequestException net_text) (GmException quota_text))
                    prompt [])) !! a
     = Some (backoff_delay initial_delay a).
Proof.
  intros Ha Hab Hkey Hq. split; [reflexivity |]. split.
  { apply backoff_delay_lt; [reflexivity | exact Hab]. }
  unfold max_retries in Ha.
  split.
  - unfold fetch_alpha_vantage_data. cbn [ALPHA_VANTAGE_API_KEY stub_env]. rewrite Hkey.
    cbn [seq max_retries av_attempts requests_get stub_env snd].
    rewrite !sleeps_app. cbn [sleeps omap list_omap app].
    do 5 (destruct a as [|a]; [reflexivity |]). lia.
  - unfold generate_gemini_content. cbn [GEMINI_API_KEY stub_env key_set]. rewrite Hkey.
    cbn [seq max_retries gm_attempts send_message stub_env try_block].
    unfold should_retry. rewrite Hq. cbn [snd].
    rewrite !sleeps_app. cbn [sleeps omap list_omap app].
    do 5 (destruct a as [|a]; [reflexivity |]). lia.
Qed.

(** C5. A client whose own credential is absent ([None], or the empty
    string, which Python also treats as false) returns its not-configured
    error at once, whatever the request and whatever the other client's
    credential: the trace is unchanged, so no outbound attempt is made and
    nothing is slept; the call returns normally. *)
Theorem missing_credential_no_attempt (E : env) (p : params) (prompt : string) (w : trace) :
  (key_set (ALPHA_VANTAGE_API_KEY E) = false ->
   fetch_alpha_vantage_data E p w = (av_not_configured, w)
   /\ attempts (snd (fetch_alpha_vantage_data E p w)) = attempts w
   /\ sleeps (snd (fetch_alpha_vantage_data E p w)) = sleeps w)
  /\ (key_set (GEMINI_API_KEY E) = false ->
      generate_gemini_content E prompt w = (Returns gm_not_configured, w)
      /\ attempts (snd (generate_gemini_content E prompt w)) = attempts w
      /\ sleeps (snd (generate_gemini_content E prompt w)) = sleeps w).
Proof.
  split.
  - intros Hav.
    assert (H1 : fetch_alpha_vantage_data E p w = (av_not_configured, w)).
    { unfold fetch_alpha_vantage_data. unfold key_set in Hav.
      destruct (ALPHA_VANTAGE_API_KEY E) as [k|]; [| reflexivity].
      by rewrite Hav. }
    rewrite H1. repeat split; reflexivity.
  - intros Hgm.
    assert (H2 : generate_gemini_content E prompt w = (Returns gm_not_configured, w)).
    { unfold generate_gemini_content. by rewrite Hgm. }
    rewrite H2. repeat split; reflexivity.
Qed.

(** C6. A parsed body whose "Error Message" is a text that does not mention
    a rate limit ends the call on that attempt: the client returns the
    error carrying that very text, after one request and no sleep. *)
Theorem av_error_message_not_retried
  (E : env) (key : string) (p : params) (w : trace) (data : dict) (t : string) :
  ALPHA_VANTAGE_API_KEY E = Some key ->
  PyStr.nonempty key = true ->
  requests_get E (<[ "apikey" := key ]> p) (attempts w) = AvBody data ->
  data !! "Error Message" = Some (JStr t) ->
  PyStr.str_in "rate limit" (PyStr.lower t) = false ->
  fetch_alpha_vantage_data E p w = (err t, w ++ [EvGet (<[ "apikey" := key ]> p)])
  /\ attempts (snd (fetch_alpha_vantage_data E p w)) = (attempts w + 1)%nat
  /\ sleeps (snd (fetch_alpha_vantage_data E p w)) = sleeps w.
Proof.
  intros Hkey Hset Hget Hmsg Hno.
  assert (Hrun : fetch_alpha_vantage_data E p w
                 = (err t, w ++ [EvGet (<[ "apikey" := key ]> p)])).
  { unfold fetch_alpha_vantage_data. rewrite Hkey, Hset.
    change (seq 0 max_retries) with (0 :: seq 1 4)%nat.
    apply av_attempts_body with (data := data); [exact Hget |].
    unfold classify_body. rewrite Hmsg. cbn. by rewrite Hno. }
  rewrite Hrun. cbn [snd]. repeat split.
  - rewrite attempts_app. reflexivity.
  - rewrite sleeps_app. cbn. by rewrite app_nil_r.
Qed.

(** C7. A parsed body without "Error Message" whose "Information" is a text
    that mentions a rate limit ends the call on that attempt: the client
    returns the error carrying the information text, after one request and
    no sleep (the "Error Message" rate-limit path, by contrast, retries:
    [av_attempts_rate_limited]). *)
Theorem av_information_rate_limit_not_retried
  (E : env) (key : string) (p : params) (w : trace) (data : dict) (t : string) :
  ALPHA_VANTAGE_API_KEY E = Some key ->
  PyStr.nonempty key = true ->
  requests_get E (<[ "apikey" := key ]> p) (attempts w) = AvBody data ->
  data !! "Error Message" = None ->
  data !! "Information" = Some (JStr t) ->
  PyStr.str_in "rate limit" (PyStr.lower t) = true ->
  fetch_alpha_vantage_data E p w = (err t, w ++ [EvGet (<[ "apikey" := key ]> p)])
  /\ attempts (snd (fetch_alpha_vantage_data E p w)) = (attempts w + 1)%nat
  /\ sleeps (snd (fetch_alpha_vantage_data E p w)) = sleeps w.
Proof.
  intros Hkey Hset Hget Hnone Hinfo Hyes.
  assert (Hrun : fetch_alpha_vantage_data E p w
                 = (err t, w ++ [EvGet (<[ "apikey" := key ]> p)])).
  { unfold fetch_alpha_vantage_data. rewrite Hkey, Hset.
    change (seq 0 max_retries) with (0 :: seq 1 4)%nat.
    apply av_attempts_body with (data := data); [exact Hget |].
    unfold classify_body, information_rate_limited, get_or.
    rewrite Hnone, Hinfo. cbn. by rewrite Hyes. }
  rewrite Hrun. cbn [snd]. repeat split.
  - rewrite attempts_app. reflexivity.
  - rewrite sleeps_app. cbn. by rewrite app_nil_r.
Qed.

(** ** The generative-text client, one attempt at a time *)

Lemma should_retry_quota (t : string) :
  PyStr.str_in "quota" (PyStr.lower t) = true -> should_retry t = Returns true.
Proof. intros H. unfold should_retry. by rewrite H. Qed.

Lemma should_retry_rate_limit (t : string) :
  PyStr.str_in "quota" (PyStr.lower t) = false ->
  PyStr.str_in "rate limit" (PyStr.lower t) = true ->
  should_retry t = Raises (NameError "name 'retries' is not defined").
Proof. intros H1 H2. unfold should_retry. by rewrite H1, H2. Qed.

Lemma should_retry_other (t : string) :
  PyStr.str_in "quota" (PyStr.lower t) = false ->
  PyStr.str_in "rate limit" (PyStr.lower t) = false ->
  should_retry t = Returns false.
Proof. intros H1 H2. unfold should_retry. by rewrite H1, H2. Qed.

(** An exception that mentions a quota is retried after the backoff sleep. *)
Lemma gm_attempts_quota (E : env) (prompt t : string) (i : nat) (rest : list nat) (w : trace) :
  send_message E prompt (attempts w) = GmException t ->
  PyStr.str_in "quota" (PyStr.lower t) = true ->
  gm_attempts E prompt (i :: rest) w
  = gm_attempts E prompt rest (w ++ retried_attempt (EvSend prompt) i).
Proof.
  intros H Hq. cbn [gm_attempts]. rewrite H. cbn [try_block]. rewrite (should_retry_quota _ Hq).
  unfold retried_attempt. by rewrite <- app_assoc.
Qed.

(** An exception that mentions neither a quota nor a rate limit ends the
    call with the error that carries its text. *)
Lemma gm_attempts_other (E : env) (prompt t : string) (i : nat) (rest : list nat) (w : trace) :
  send_message E prompt (attempts w) = GmException t ->
  PyStr.str_in "quota" (PyStr.lower t) = false ->
  PyStr.str_in "rate limit" (PyStr.lower t) = false ->
  gm_attempts E prompt (i :: rest) w = (Returns (gm_unexpected t), w ++ [EvSend prompt]).
Proof.
  intros H H1 H2. cbn [gm_attempts]. rewrite H. cbn [try_block]. by rewrite (should_retry_other _ H1 H2).
Qed.

(** C3. An exception whose text mentions a rate limit but no quota is not
    retried: evaluating line 131 reads the unbound name [retries], and the
    call ends by raising NameError after that one attempt, with no sleep. *)
Theorem gm_rate_limit_exception_raises
  (E : env) (prompt t : string) (w : trace) :
  key_set (GEMINI_API_KEY E) = true ->
  send_message E prompt (attempts w) = GmException t ->
  PyStr.str_in "quota" (PyStr.lower t) = false ->
  PyStr.str_in "rate limit" (PyStr.lower t) = true ->
  generate_gemini_content E prompt w
  = (Raises (NameError "name 'retries' is not defined"), w ++ [EvSend prompt]).
Proof.
  intros Hkey H H1 H2. unfold generate_gemini_content. rewrite Hkey.
  change (seq 0 max_retries) with (0 :: seq 1 4)%nat.
  cbn [gm_attempts]. rewrite H. cbn [try_block]. by rewrite (should_retry_rate_limit _ H1 H2).
Qed.

(** The accessor gives a text exactly to a response with content, and
    raises on the others. *)
Lemma response_text_content (r : gen_response) (t : string) :
  response_text r = Returns t -> has_content r = true /\ t = text r.
Proof.
  unfold response_text, has_content, content_set.
  destruct (candidates r) as [|c cs]; [discriminate |].
  destruct (parts (cand_content c)) as [|x xs]; [discriminate |].
  intros [= <-]. by rewrite orb_true_r.
Qed.

Lemma response_text_empty (r : gen_response) :
  has_content r = false -> response_text r = Raises (ValueError (text_error r)).
Proof.
  unfold response_text, has_content, content_set.
  destruct (candidates r) as [|c cs]; [reflexivity |].
  destruct (parts (cand_content c)) as [|x xs]; [reflexivity |].
  by rewrite orb_true_r.
Qed.

Lemma try_block_content (r : gen_response) :
  has_content r = true -> try_block (GmResponse r) = inr {[ "success" := JStr (text r) ]}.
Proof.
  intros H. unfold try_block.
  destruct (response_text r) as [t|e] eqn:Ht.
  - destruct (response_text_content r t Ht) as [_ ->]. by rewrite H.
  - unfold response_text, has_content in *.
    destruct (candidates r) as [|c cs]; [discriminate |].
    destruct (parts (cand_content c)) as [|x xs]; [| discriminate].
    by rewrite andb_false_r in H.
Qed.

Lemma try_block_empty (r : gen_response) :
  has_content r = false -> try_block (GmResponse r) = inl (text_error r).
Proof. intros H. unfold try_block. by rewrite (response_text_empty r H). Qed.

Lemma err_inj (a b : string) : err a = err b -> a = b.
Proof.
  intros H. apply (f_equal (fun d : dict => d !! "error")) in H.
  unfold err in H. rewrite !lookup_singleton_eq in H. by injection H.
Qed.

(** The [try] block never leaves with the malformed-response error. *)
Lemma try_block_not_malformed (o : gm_outcome) : try_block o <> inr gm_malformed.
Proof.
  destruct o as [t|r]; [discriminate |].
  destruct (has_content r) eqn:Hc.
  - rewrite (try_block_content r Hc). intros Heq.
    assert (H : ({[ "success" := JStr (text r) ]} : dict) = gm_malformed) by congruence.
    apply (f_equal (fun d : dict => d !! "success")) in H.
    unfold gm_malformed, err in H.
    rewrite lookup_singleton_eq, lookup_singleton_ne in H; [discriminate H | discriminate].
  - by rewrite (try_block_empty r Hc).
Qed.

Lemma gm_attempts_not_malformed (E : env) (prompt : string) (idx : list nat) :
  forall w, fst (gm_attempts E prompt idx w) <> Returns gm_malformed.
Proof.
  induction idx as [|i rest IH]; intros w.
  - cbn [gm_attempts fst]. intros Heq.
    assert (H : gm_retries_exhausted = gm_malformed) by congruence.
    apply err_inj in H. discriminate H.
  - cbn [gm_attempts].
    destruct (try_block (send_message E prompt (attempts w))) as [t|d] eqn:Ht.
    + destruct (should_retry t) as [[|]|x].
      * apply IH.
      * cbn [fst]. intros Heq.
        assert (H : gm_unexpected t = gm_malformed) by congruence.
        apply err_inj in H. discriminate H.
      * discriminate.
    + cbn [fst]. intros Heq.
      assert (H : d = gm_malformed) by congruence.
      subst d. by apply (try_block_not_malformed _ Ht).
Qed.

(** C8. Success is declared only with content: a response whose first
    candidate has a content with parts gives the success dictionary with
    the response text. A response with an empty structure, however, never
    reaches the check of line 125: line 122 reads [response.text] first, the
    accessor raises, and the except clause of line 130 answers with the
    unexpected-error message (when the accessor's message mentions neither
    a quota nor a rate limit). No run of the client returns the
    malformed-response error of line 128. *)
Theorem gm_empty_response_not_malformed
  (E : env) (prompt : string) (w : trace) (r : gen_response) :
  key_set (GEMINI_API_KEY E) = true ->
  send_message E prompt (attempts w) = GmResponse r ->
  (has_content r = true ->
   generate_gemini_content E prompt w
   = (Returns {[ "success" := JStr (text r) ]}, w ++ [EvSend prompt]))
  /\ (has_content r = false ->
      PyStr.str_in "quota" (PyStr.lower (text_error r)) = false ->
      PyStr.str_in "rate limit" (PyStr.lower (text_error r)) = false ->
      generate_gemini_content E prompt w
      = (Returns (gm_unexpected (text_error r)), w ++ [EvSend prompt])
      /\ gm_unexpected (text_error r) <> gm_malformed)
  /\ fst (generate_gemini_content E prompt w) <> Returns gm_malformed.
Proof.
  intros Hkey H. unfold generate_gemini_content. rewrite Hkey.
  split; [| split].
  - intros Hc. change (seq 0 max_retries) with (0 :: seq 1 4)%nat.
    cbn [gm_attempts]. by rewrite H, (try_block_content r Hc).
  - intros Hc H1 H2. split.
    + change (seq 0 max_retries) with (0 :: seq 1 4)%nat.
      cbn [gm_attempts].
      by rewrite H, (try_block_empty r Hc), (should_retry_other _ H1 H2).
    + intros Heq. apply err_inj in Heq. discriminate Heq.
  - apply gm_attempts_not_malformed.
Qed.

(** ** The handler's store *)

Lemma bind_returns {A B} (m : M A) (k : A -> M B) (st st' : store) (a : A) :
  m st = (Returns a, st') -> bind m k st = k a st'.
Proof. intros H. unfold bind. by rewrite H. Qed.

Lemma bind_raises {A B} (m : M A) (k : A -> M B) (st st' : store) (e : exn) :
  m st = (Raises e, st') -> bind m k st = (Raises e, st').
Proof. intros H. unfold bind. by rewrite H. Qed.

Lemma bind_assoc {A B C} (m : M A) (k : A -> M B) (h : B -> M C) (st : store) :
  bind (bind m k) h st = bind m (fun a => bind (k a) h) st.
Proof. unfold bind. destruct (m st) as [[a|e] st']; [| reflexivity]. reflexivity. Qed.

Section Frame.

Context {X : Type} (f : report -> X).

Lemma keeps_ret {A} (a : A) : keeps f (ret a).
Proof. by intros st. Qed.

Lemma keeps_lift {A} (r : pyresult A) : keeps f (lift r).
Proof. by intros st. Qed.

Lemma keeps_get_report : keeps f get_report.
Proof. by intros st. Qed.

Lemma keeps_update (g : report -> report) :
  (forall r, f (g r) = f r) -> keeps f (update_report g).
Proof. intros H st. cbn. apply H. Qed.

Lemma keeps_bind {A B} (m : M A) (k : A -> M B) :
  keeps f m -> (forall a, keeps f (k a)) -> keeps f (bind m k).
Proof.
  intros Hm Hk st. unfold bind. specialize (Hm st).
  destruct (m st) as [[a|e] st']; cbn in *.
  - by rewrite Hk.
  - exact Hm.
Qed.

Lemma keeps_call_fetch (E : env) (p : params) : keeps f (call_fetch E p).
Proof.
  intros st. unfold call_fetch.
  by destruct (fetch_alpha_vantage_data E p (log st)).
Qed.

Lemma keeps_if {A} (b : bool) (m n : M A) :
  keeps f m -> keeps f n -> keeps f (if b then m else n).
Proof. by destruct b. Qed.

Lemma keeps_append_error (E : env) (label : string) (data : dict) :
  (forall v r, f (set_error v r) = f r) -> keeps f (append_error E label data).
Proof.
  intros H. unfold append_error.
  apply keeps_bind; [apply keeps_get_report | intros r].
  apply keeps_bind; [apply keeps_lift | intros v].
  apply keeps_update, H.
Qed.

End Frame.

(** [respond] only reads the store. *)
Lemma respond_store (st : store) : snd (respond st) = st.
Proof.
  unfold respond, bind, get_report, ret.
  by destruct (negb (truthy (global_quote (report_data st))) &&
               negb (truthy (overview (report_data st)))).
Qed.

(** With the narrative still [None], recording a sub-call error raises:
    [None + "..."] is a type error. *)
Lemma append_error_none (E : env) (label : string) (data : dict) (st : store) :
  error (report_data st) = JNull ->
  append_error E label data st = (Raises none_plus_str, st).
Proof.
  intros H. unfold append_error, bind, get_report, lift. by rewrite H.
Qed.

Lemma call_fetch_eq (E : env) (p : params) (st : store) (d : dict) (w : trace) :
  fetch_alpha_vantage_data E p (log st) = (d, w) ->
  call_fetch E p st = (Returns d, {| log := w; report_data := report_data st |}).
Proof. intros H. unfold call_fetch. by rewrite H. Qed.

(** The blocks of the handler and the sections they leave alone. *)
Lemma fetch_quote_keeps {X} (f : report -> X) (E : env) (s : string) :
  (forall v r, f (set_error v r) = f r) ->
  (forall v r, f (set_global_quote v r) = f r) ->
  keeps f (fetch_quote E s).
Proof.
  intros He Hq. unfold fetch_quote.
  apply keeps_bind; [apply keeps_call_fetch | intros d].
  apply keeps_if; [by apply keeps_append_error | by apply keeps_update].
Qed.

Lemma fetch_overview_keeps {X} (f : report -> X) (E : env) (s : string) :
  (forall v r, f (set_error v r) = f r) ->
  (forall v r, f (set_overview v r) = f r) ->
  keeps f (fetch_overview E s).
Proof.
  intros He Hq. unfold fetch_overview.
  apply keeps_bind; [apply keeps_call_fetch | intros d].
  apply keeps_if; [by apply keeps_append_error | by apply keeps_update].
Qed.

Lemma fetch_income_statement_keeps {X} (f : report -> X) (E : env) (s : string) :
  (forall v r, f (set_error v r) = f r) ->
  (forall v r, f (set_income_statement v r) = f r) ->
  keeps f (fetch_income_statement E s).
Proof.
  intros He Hq. unfold fetch_income_statement.
  apply keeps_bind; [apply keeps_call_fetch | intros d].
  apply keeps_if; [by apply keeps_append_error |].
  apply keeps_bind; [apply keeps_lift | intros v]. by apply keeps_update.
Qed.

Lemma fetch_earnings_keeps {X} (f : report -> X) (E : env) (s : string) :
  (forall v r, f (set_error v r) = f r) ->
  (forall v r, f (set_earnings v r) = f r) ->
  keeps f (fetch_earnings E s).
Proof.
  intros He Hq. unfold fetch_earnings.
  apply keeps_bind; [apply keeps_call_fetch | intros d].
  apply keeps_if; [by apply keeps_append_error |].
  apply keeps_bind; [apply keeps_lift | intros v]. apply keeps_update.
  intros r. apply Hq.
Qed.

Lemma respond_keeps {X} (f : report -> X) : keeps f respond.
Proof. intros st. by rewrite respond_store. Qed.

Lemma bind_assoc3 {A B C D} (m : M A) (n : M B) (o : M C) (k : C -> M D) (st : store) :
  bind m (fun _ => bind n (fun _ => bind o k)) st
  = bind (bind m (fun _ => bind n (fun _ => o))) k st.
Proof.
  unfold bind. destruct (m st) as [[a|e] st1]; [| reflexivity].
  destruct (n st1) as [[b|e] st2]; reflexivity.
Qed.

(** What the income-statement block does when its sub-call succeeds with a
    list under "annualReports". *)
Lemma fetch_income_statement_ok
  (E : env) (s : string) (st : store) (data : dict) (w : trace) (l : list json) :
  fetch_alpha_vantage_data E (income_params s) (log st) = (data, w) ->
  has_key "error" data = false ->
  data !! "annualReports" = Some (JList l) ->
  fetch_income_statement E s st
  = (Returns tt,
     {| log := w;
        report_data := set_income_statement (JList (firstn 3 l)) (report_data st) |}).
Proof.
  intros Hf He Hl. unfold fetch_income_statement.
  rewrite (bind_returns _ _ _ _ _ (call_fetch_eq _ _ _ _ _ Hf)).
  rewrite He. unfold get_or. rewrite Hl. reflexivity.
Qed.

(** What the earnings block does when its sub-call succeeds and
    [earnings_data.get('annualEarnings', [])] is a list. *)
Lemma fetch_earnings_ok
  (E : env) (s : string) (st : store) (data : dict) (w : trace) (l : list json) :
  fetch_alpha_vantage_data E (earnings_params s) (log st) = (data, w) ->
  has_key "error" data = false ->
  get_or "annualEarnings" (JList []) data = JList l ->
  fetch_earnings E s st
  = (Returns tt,
     {| log := w;
        report_data :=
          set_earnings (<[ "annualReports" := JList (firstn 3 l) ]> (earnings (report_data st)))
                       (report_data st) |}).
Proof.
  intros Hf He Hl. unfold fetch_earnings.
  rewrite (bind_returns _ _ _ _ _ (call_fetch_eq _ _ _ _ _ Hf)).
  rewrite He, Hl. reflexivity.
Qed.

(** What any block does when its sub-call fails while the narrative is
    still [None]. *)
Lemma fetch_earnings_failed
  (E : env) (s : string) (st : store) (data : dict) (w : trace) :
  fetch_alpha_vantage_data E (earnings_params s) (log st) = (data, w) ->
  has_key "error" data = true ->
  error (report_data st) = JNull ->
  fetch_earnings E s st
  = (Raises none_plus_str, {| log := w; report_data := report_data st |}).
Proof.
  intros Hf He Hn. unfold fetch_earnings.
  rewrite (bind_returns _ _ _ _ _ (call_fetch_eq _ _ _ _ _ Hf)).
  rewrite He. by apply append_error_none.
Qed.

Lemma fetch_quote_failed
  (E : env) (s : string) (st : store) (data : dict) (w : trace) :
  fetch_alpha_vantage_data E (quote_params s) (log st) = (data, w) ->
  has_key "error" data = true ->
  error (report_data st) = JNull ->
  fetch_quote E s st
  = (Raises none_plus_str, {| log := w; report_data := report_data st |}).
Proof.
  intros Hf He Hn. unfold fetch_quote.
  rewrite (bind_returns _ _ _ _ _ (call_fetch_eq _ _ _ _ _ Hf)).
  rewrite He. by apply append_error_none.
Qed.

(** C9. When the income-statement sub-call succeeds and its response holds
    a list under "annualReports", the income-statement section of
    [report_data] is the first three entries of that list, and stays so to
    the end of the handler; of five reports exactly the first three are
    kept. *)
Theorem income_statement_keeps_first_three
  (E : env) (ticker : string) (w : trace) (st2 : store)
  (data : dict) (w3 : trace) (l : list json) :
  PyStr.nonempty (sanitize ticker) = true ->
  (fetch_quote E (sanitize ticker) ;;; fetch_overview E (sanitize ticker))%handler
    (initial_store ticker w) = (Returns tt, st2) ->
  fetch_alpha_vantage_data E (income_params (sanitize ticker)) (log st2) = (data, w3) ->
  has_key "error" data = false ->
  data !! "annualReports" = Some (JList l) ->
  exists res w' r,
    get_full_stock_report E ticker w = (res, w', Some r)
    /\ income_statement r = JList (firstn 3 l)
    /\ (forall a b c d e, l = [a; b; c; d; e] -> income_statement r = JList [a; b; c]).
Proof.
  intros Hs H12 Hf He Hl.
  unfold get_full_stock_report. rewrite Hs. cbn [negb].
  set (s := sanitize ticker) in *.
  set (tail := (fetch_earnings E s ;;; respond)%handler).
  change ({| log := w; report_data := initial_report s |}) with (initial_store ticker w).
  rewrite <- (bind_assoc (fetch_quote E s) (fun _ => fetch_overview E s)
                (fun _ => (fetch_income_statement E s ;;; tail)%handler)).
  rewrite (bind_returns _ _ _ _ _ H12).
  rewrite (bind_returns _ _ _ _ _ (fetch_income_statement_ok _ _ _ _ _ _ Hf He Hl)).
  assert (Hk : keeps income_statement tail).
  { apply keeps_bind; [by apply fetch_earnings_keeps | intros _; apply respond_keeps]. }
  specialize (Hk {| log := w3;
                    report_data := set_income_statement (JList (firstn 3 l)) (report_data st2) |}).
  destruct (tail _) as [res st4]. cbn in Hk.
  exists res, (log st4), (report_data st4). split; [reflexivity |].
  split; [exact Hk |]. intros a b c d e ->. exact Hk.
Qed.

(** C10. When the earnings sub-call succeeds, the earnings section of
    [report_data] holds, under the nested key "annualReports", the first
    three entries (hence at most three) of the "annualEarnings" list, the
    empty list standing in for a missing key. When the sub-call fails the
    earnings section is still the empty dictionary of line 257 (the handler
    then ends in [append_error], see [append_error_none]). *)
Theorem earnings_keeps_first_three
  (E : env) (ticker : string) (w : trace) (st3 : store) (data : dict) (w4 : trace) :
  PyStr.nonempty (sanitize ticker) = true ->
  (fetch_quote E (sanitize ticker) ;;; fetch_overview E (sanitize ticker) ;;;
   fetch_income_statement E (sanitize ticker))%handler
    (initial_store ticker w) = (Returns tt, st3) ->
  fetch_alpha_vantage_data E (earnings_params (sanitize ticker)) (log st3) = (data, w4) ->
  exists res w' r,
    get_full_stock_report E ticker w = (res, w', Some r)
    /\ (forall l,
          has_key "error" data = false ->
          get_or "annualEarnings" (JList []) data = JList l ->
          earnings r = {[ "annualReports" := JList (firstn 3 l) ]}
          /\ (length (firstn 3 l) <= 3)%nat)
    /\ (has_key "error" data = true -> earnings r = ∅).
Proof.
  intros Hs H123 Hf.
  assert (He3 : earnings (report_data st3) = ∅).
  { assert (Hk : keeps earnings
                   (fetch_quote E (sanitize ticker) ;;; fetch_overview E (sanitize ticker) ;;;
                    fetch_income_statement E (sanitize ticker))%handler).
    { apply keeps_bind; [by apply fetch_quote_keeps | intros _].
      apply keeps_bind; [by apply fetch_overview_keeps | intros _].
      by apply fetch_income_statement_keeps. }
    specialize (Hk (initial_store ticker w)). rewrite H123 in Hk. exact Hk. }
  unfold get_full_stock_report. rewrite Hs. cbn [negb].
  set (s := sanitize ticker) in *.
  set (tail := (fetch_earnings E s ;;; respond)%handler).
  change ({| log := w; report_data := initial_report s |}) with (initial_store ticker w).
  rewrite (bind_assoc3 (fetch_quote E s) (fetch_overview E s) (fetch_income_statement E s)
             (fun _ => tail)).
  rewrite (bind_returns _ _ _ _ _ H123).
  destruct (tail st3) as [res st4] eqn:Ht.
  exists res, (log st4), (report_data st4). split; [reflexivity |]. split.
  - intros l He Hl. subst tail.
    rewrite (bind_returns _ _ _ _ _ (fetch_earnings_ok _ _ _ _ _ _ Hf He Hl)) in Ht.
    pose proof (respond_store
                  {| log := w4;
                     report_data :=
                       set_earnings
                         (<[ "annualReports" := JList (firstn 3 l) ]> (earnings (report_data st3)))
                         (report_data st3) |}) as Hr.
    rewrite Ht in Hr. cbn [snd] in Hr. subst st4. cbn [report_data earnings set_earnings].
    rewrite He3, insert_empty. split; [reflexivity |].
    rewrite length_take. lia.
  - intros He. subst tail. unfold fetch_earnings in Ht.
    rewrite bind_assoc, (bind_returns _ _ _ _ _ (call_fetch_eq _ _ _ _ _ Hf)), He in Ht.
    assert (Hk : keeps earnings
                   (append_error E "Earnings Error: " data ;;; respond)%handler).
    { apply keeps_bind; [by apply keeps_append_error | intros _; apply respond_keeps]. }
    specialize (Hk {| log := w4; report_data := report_data st3 |}).
    rewrite Ht in Hk. cbn in Hk. by rewrite Hk.
Qed.

(** ** The narrative is never accumulated *)

Lemma narrative_bind {A B} (m : M A) (k : A -> M B) :
  narrative_stays_none m -> (forall a, narrative_stays_none (k a)) ->
  narrative_stays_none (bind m k).
Proof.
  intros Hm Hk st b st' Hn H. unfold bind in H.
  destruct (m st) as [[a|e] st1] eqn:Hst; [| discriminate].
  eapply Hk; [| exact H]. eapply Hm; [exact Hn | exact Hst].
Qed.

Lemma narrative_call_fetch (E : env) (p : params) : narrative_stays_none (call_fetch E p).
Proof.
  intros st d st' Hn H. unfold call_fetch in H.
  destruct (fetch_alpha_vantage_data E p (log st)). by inversion H; subst.
Qed.

Lemma narrative_append_error (E : env) (label : string) (data : dict) :
  narrative_stays_none (append_error E label data).
Proof. intros st a st' Hn H. by rewrite append_error_none in H. Qed.

Lemma narrative_update (g : report -> report) :
  (forall r, error (g r) = error r) -> narrative_stays_none (update_report g).
Proof. intros Hg st a st' Hn H. inversion H; subst. cbn. by rewrite Hg. Qed.

Lemma narrative_lift {A} (r : pyresult A) : narrative_stays_none (lift r).
Proof. intros st a st' Hn H. by inversion H; subst. Qed.

Lemma narrative_if {A} (b : bool) (m n : M A) :
  narrative_stays_none m -> narrative_stays_none n ->
  narrative_stays_none (if b then m else n).
Proof. by destruct b. Qed.

Ltac narrative :=
  repeat first
    [ apply narrative_append_error
    | apply narrative_call_fetch
    | apply narrative_bind; [| intros ?]
    | apply narrative_if
    | apply narrative_lift
    | apply narrative_update; intros ?; reflexivity ].

Lemma narrative_blocks (E : env) (s : string) :
  narrative_stays_none
    (fetch_quote E s ;;; fetch_overview E s ;;;
     fetch_income_statement E s ;;; fetch_earnings E s)%handler.
Proof.
  unfold fetch_quote, fetch_overview, fetch_income_statement, fetch_earnings.
  narrative.
Qed.

(** What line 294 onwards answers when the narrative is [None]: the generic
    not-found error when both the quote and the overview are empty, the
    report otherwise. *)
Lemma respond_without_narrative (st : store) :
  error (report_data st) = JNull ->
  respond st
  = (Returns
       (if negb (truthy (global_quote (report_data st))) &&
           negb (truthy (overview (report_data st)))
        then {| body := JObj (err not_found_message); status := 404 |}
        else {| body := jsonify_report (report_data st); status := 200 |}),
     st).
Proof.
  intros Hn. unfold respond, bind, get_report, ret. rewrite Hn. cbn [truthy negb].
  by destruct (negb (truthy (global_quote (report_data st))) &&
               negb (truthy (overview (report_data st)))).
Qed.

(** Every response the handler returns is the invalid-ticker error, the
    generic not-found error, or a report whose narrative is [None]: no
    response carries an accumulated narrative. *)
Lemma full_report_responses (E : env) (ticker : string) (w w' : trace)
  (resp : response) (r : option report) :
  get_full_stock_report E ticker w = (Returns resp, w', r) ->
  status resp = 400%nat
  \/ resp = {| body := JObj (err not_found_message); status := 404 |}
  \/ exists r', r = Some r' /\ error r' = JNull
                /\ resp = {| body := jsonify_report r'; status := 200 |}.
Proof.
  unfold get_full_stock_report.
  destruct (negb (PyStr.nonempty (sanitize ticker))).
  { intros H. inversion H; subst. by left. }
  set (s := sanitize ticker).
  rewrite (bind_assoc3 (fetch_quote E s) (fetch_overview E s) (fetch_income_statement E s)
             (fun _ => (fetch_earnings E s ;;; respond)%handler)).
  rewrite <- (bind_assoc
                (fetch_quote E s ;;; fetch_overview E s ;;; fetch_income_statement E s)%handler
                (fun _ => fetch_earnings E s) (fun _ => respond)).
  set (st0 := {| log := w; report_data := initial_report s |}).
  unfold bind at 1.
  destruct (bind _ _ st0) as [[[]|e] st4] eqn:Hblocks; [| intros H; inversion H].
  assert (Hn : error (report_data st4) = JNull).
  { eapply (narrative_blocks E s st0); [reflexivity |].
    rewrite <- Hblocks. unfold bind.
    destruct (fetch_quote E s st0) as [[[]|?] st1]; [| reflexivity].
    destruct (fetch_overview E s st1) as [[[]|?] ?]; reflexivity. }
  rewrite (respond_without_narrative _ Hn). intros H. inversion H; subst.
  destruct (negb (truthy (global_quote (report_data st4))) &&
            negb (truthy (overview (report_data st4)))).
  - right; by left.
  - right; right. by exists (report_data st4).
Qed.

(** A failing quote sub-call ends the handler at line 265. *)
Lemma full_report_quote_failure
  (E : env) (ticker : string) (w w1 : trace) (data : dict) :
  PyStr.nonempty (sanitize ticker) = true ->
  fetch_alpha_vantage_data E (quote_params (sanitize ticker)) w = (data, w1) ->
  has_key "error" data = true ->
  get_full_stock_report E ticker w
  = (Raises none_plus_str, w1, Some (initial_report (sanitize ticker))).
Proof.
  intros Hs Hf He. unfold get_full_stock_report. rewrite Hs. cbn [negb].
  change ({| log := w; report_data := initial_report (sanitize ticker) |})
    with (initial_store ticker w).
  by rewrite (bind_raises _ _ _ _ _
                (fetch_quote_failed E _ (initial_store ticker w) _ _ Hf He eq_refl)).
Qed.

(** ** Failed sub-calls on a sample provider *)

(** C2. The handler does not report a failed sub-call: with the quote and
    the overview sub-calls failing it raises a type error at the first of
    them, after one request, instead of answering 404 with the narrative;
    and with the earnings sub-call alone failing it raises as well, after
    the four requests, instead of returning the partial report. *)
Theorem full_report_sub_call_failure_raises :
  get_full_stock_report (sample_env ["GLOBAL_QUOTE"; "OVERVIEW"]) "ibm" []
  = (Raises none_plus_str,
     [EvGet (<[ "apikey" := "demo" ]> (quote_params "IBM"))],
     Some (initial_report "IBM"))
  /\ (let '(res, w, _) := get_full_stock_report (sample_env ["EARNINGS"]) "ibm" [] in
      res = Raises none_plus_str /\ attempts w = 4%nat /\ sleeps w = []).
Proof. split; [| repeat split]; vm_compute; reflexivity. Qed.

(** ** Concrete runs *)

Lemma av_rate_limit_exhausts_retries_witness :
  let E := stub_env (Some "demo")
             (AvBody {[ "Error Message" := JStr "API Rate Limit reached" ]})
             (GmException "") in
  let q : params := <[ "apikey" := "demo" ]> (overview_params "IBM") in
  fetch_alpha_vantage_data E (overview_params "IBM") []
  = (av_retries_exhausted,
     [EvGet q; EvSleep 1; EvGet q; EvSleep 2; EvGet q; EvSleep 4;
      EvGet q; EvSleep 8; EvGet q; EvSleep 16]).
Proof.
  intros E q.
  apply (av_rate_limit_exhausts_retries E "demo" (overview_params "IBM") []).
  - reflexivity.
  - reflexivity.
  - intros q' k. vm_compute. reflexivity.
Defined.

Lemma backoff_delay_exponential_witness :
  backoff_delay initial_delay 3 = (1 * 2 ^ 3)%Z
  /\ (backoff_delay initial_delay 3 < backoff_delay initial_delay 4)%Z.
Proof.
  destruct (backoff_delay_exponential 3 4 "demo" (overview_params "IBM") "hello"
              "timed out" "Quota exceeded") as (H1 & H2 & _).
  - unfold max_retries. lia.
  - lia.
  - reflexivity.
  - vm_compute. reflexivity.
  - split; [exact H1 | exact H2].
Defined.

Lemma missing_credential_no_attempt_witness :
  fetch_alpha_vantage_data (keyed_env None (Some "demo")) (overview_params "IBM") []
  = (av_not_configured, [])
  /\ generate_gemini_content (keyed_env (Some "demo") (Some "")) "hello" []
     = (Returns gm_not_configured, []).
Proof.
  split.
  - destruct (missing_credential_no_attempt (keyed_env None (Some "demo"))
                (overview_params "IBM") "hello" []) as [H _].
    destruct H as [H _]; [reflexivity | exact H].
  - destruct (missing_credential_no_attempt (keyed_env (Some "demo") (Some ""))
                (overview_params "IBM") "hello" []) as [_ H].
    destruct H as [H _]; [reflexivity | exact H].
Defined.

Lemma av_error_message_not_retried_witness :
  fetch_alpha_vantage_data (sample_env ["OVERVIEW"]) (overview_params "IBM") []
  = (err "Invalid API call.", [EvGet (<[ "apikey" := "demo" ]> (overview_params "IBM"))]).
Proof.
  apply (av_error_message_not_retried (sample_env ["OVERVIEW"]) "demo" (overview_params "IBM") []
           {[ "Error Message" := JStr "Invalid API call." ]} "Invalid API call.").
  - reflexivity.
  - reflexivity.
  - vm_compute. reflexivity.
  - vm_compute. reflexivity.
  - vm_compute. reflexivity.
Defined.

Lemma av_information_rate_limit_not_retried_witness :
  let E := stub_env (Some "demo")
             (AvBody {[ "Information" := JStr "Our standard API rate limit is 25 requests per day." ]})
             (GmException "") in
  fetch_alpha_vantage_data E (overview_params "IBM") []
  = (err "Our standard API rate limit is 25 requests per day.",
     [EvGet (<[ "apikey" := "demo" ]> (overview_params "IBM"))]).
Proof.
  intros E.
  apply (av_information_rate_limit_not_retried E "demo" (overview_params "IBM") []
           {[ "Information" := JStr "Our standard API rate limit is 25 requests per day." ]}
           "Our standard API rate limit is 25 requests per day.").
  - reflexivity.
  - reflexivity.
  - reflexivity.
  - vm_compute. reflexivity.
  - vm_compute. reflexivity.
  - vm_compute. reflexivity.
Defined.

Lemma gm_rate_limit_exception_raises_witness :
  generate_gemini_content (sample_env []) "hello" []
  = (Raises (NameError "name 'retries' is not defined"), [EvSend "hello"]).
Proof.
  apply (gm_rate_limit_exception_raises (sample_env []) "hello" "429 Rate limit exceeded" []).
  - reflexivity.
  - reflexivity.
  - vm_compute. reflexivity.
  - vm_compute. reflexivity.
Defined.

Lemma gm_empty_response_not_malformed_witness :
  generate_gemini_content (stub_env (Some "demo") (AvBody ∅) (GmResponse blocked_response))
    "hello" []
  = (Returns (gm_unexpected no_part_message), [EvSend "hello"])
  /\ gm_unexpected no_part_message <> gm_malformed
  /\ generate_gemini_content (stub_env (Some "demo") (AvBody ∅) (GmResponse (text_response "{}")))
       "hello" []
     = (Returns {[ "success" := JStr "{}" ]}, [EvSend "hello"]).
Proof.
  destruct (gm_empty_response_not_malformed
              (stub_env (Some "demo") (AvBody ∅) (GmResponse blocked_response)) "hello" []
              blocked_response) as (_ & Hempty & _); [reflexivity | reflexivity |].
  destruct (gm_empty_response_not_malformed
              (stub_env (Some "demo") (AvBody ∅) (GmResponse (text_response "{}"))) "hello" []
              (text_response "{}")) as (Hfull & _); [reflexivity | reflexivity |].
  destruct Hempty as [H1 H2]; [reflexivity | vm_compute; reflexivity | vm_compute; reflexivity |].
  split; [exact H1 | split; [exact H2 |]].
  apply Hfull. reflexivity.
Defined.

Lemma income_statement_keeps_first_three_witness :
  exists res w' r,
    get_full_stock_report (sample_env []) "ibm" [] = (res, w', Some r)
    /\ income_statement r = JList (map annual ["2023"; "2022"; "2021"]).
Proof.
  pose (E := sample_env []).
  pose (st2 := snd ((fetch_quote E "IBM" ;;; fetch_overview E "IBM")%handler
                      (initial_store "ibm" []))).
  destruct (income_statement_keeps_first_three E "ibm" [] st2
              {[ "annualReports" := JList (map annual ["2023"; "2022"; "2021"; "2020"; "2019"]) ]}
              (log st2 ++ [EvGet (<[ "apikey" := "demo" ]> (income_params "IBM"))])
              (map annual ["2023"; "2022"; "2021"; "2020"; "2019"]))
    as (res & w' & r & Hrun & Hfirst & _).
  - reflexivity.
  - vm_compute. reflexivity.
  - vm_compute. reflexivity.
  - vm_compute. reflexivity.
  - vm_compute. reflexivity.
  - exists res, w', r. split; [exact Hrun | exact Hfirst].
Defined.

Lemma earnings_keeps_first_three_witness :
  exists res w' r,
    get_full_stock_report (sample_env []) "ibm" [] = (res, w', Some r)
    /\ earnings r = {[ "annualReports" := JList (map annual ["2023"; "2022"; "2021"]) ]}.
Proof.
  pose (E := sample_env []).
  pose (st3 := snd ((fetch_quote E "IBM" ;;; fetch_overview E "IBM" ;;;
                     fetch_income_statement E "IBM")%handler (initial_store "ibm" []))).
  destruct (earnings_keeps_first_three E "ibm" [] st3
              {[ "annualEarnings" := JList (map annual ["2023"; "2022"; "2021"; "2020"]) ]}
              (log st3 ++ [EvGet (<[ "apikey" := "demo" ]> (earnings_params "IBM"))]))
    as (res & w' & r & Hrun & Hok & _).
  - reflexivity.
  - vm_compute. reflexivity.
  - vm_compute. reflexivity.
  - exists res, w', r. split; [exact Hrun |].
    apply (Hok (map annual ["2023"; "2022"; "2021"; "2020"])); vm_compute; reflexivity.
Defined.

(** The sample run end to end: four requests, no sleep, a 200 response. *)
Example full_report_sample_run :
  let '(res, w, r) := get_full_stock_report (sample_env []) "ibm" [] in
  attempts w = 4%nat /\ sleeps w = []
  /\ match res, r with
     | Returns resp, Some r' =>
         status resp = 200%nat /\ body resp = jsonify_report r'
         /\ symbol r' = "IBM" /\ error r' = JNull
     | _, _ => False
     end.
Proof. vm_compute. repeat split; reflexivity. Qed.

(** * Further properties *)

(** ** Runs of the financial-data client *)

Lemma total_sleep_app (w1 w2 : trace) : total_sleep (w1 ++ w2) = (total_sleep w1 + total_sleep w2)%Z.
Proof.
  unfold total_sleep. rewrite sleeps_app.
  induction (sleeps w1) as [|s l IH]; cbn; [reflexivity | rewrite IH; lia].
Qed.

Lemma retried_attempts_S (ev : event) (a k : nat) :
  retried_attempts ev a (S k) = retried_attempt ev a ++ retried_attempts ev (S a) k.
Proof. reflexivity. Qed.

Lemma attempts_retried_attempts (ev : event) (a k : nat) :
  is_attempt ev = true -> attempts (retried_attempts ev a k) = k.
Proof.
  intros Hev. revert a. induction k as [|k IH]; intros a; [reflexivity |].
  rewrite retried_attempts_S, attempts_app, IH.
  unfold retried_attempt, attempts. rewrite filter_cons_True by exact Hev.
  rewrite filter_cons_False by (cbn; discriminate). reflexivity.
Qed.

Lemma attempts_retried_attempt (ev : event) (i : nat) (w : trace) :
  is_attempt ev = true -> attempts (w ++ retried_attempt ev i) = S (attempts w).
Proof.
  intros Hev. rewrite attempts_app.
  change (retried_attempt ev i) with (retried_attempts ev i 1 ++ []).
  rewrite app_nil_r, attempts_retried_attempts by exact Hev. lia.
Qed.

Lemma has_key_err (msg : string) : has_key "error" (err msg) = true.
Proof. unfold has_key, err. rewrite lookup_singleton_eq. reflexivity. Qed.

Lemma has_key_singleton (v : json) : has_key "error" ({[ "error" := v ]} : dict) = true.
Proof. unfold has_key. rewrite lookup_singleton_eq. reflexivity. Qed.

(** The body is retried exactly when its "Error Message" mentions a rate
    limit. *)
Lemma classify_body_retry (data : dict) :
  classify_body data = Returns AvRetry <-> rate_limited_body (AvBody data) = true.
Proof.
  unfold classify_body, rate_limited_body, information_rate_limited, note_is_advisory,
    py_lower, py_str_in, pybind.
  repeat case_match; simplify_eq; split; intros; simplify_eq; first [done | congruence].
Qed.

(** A dictionary that ends the call is an error dictionary or the body
    itself. *)
Lemma classify_body_return (data d : dict) :
  classify_body data = Returns (AvReturn d) -> has_key "error" d = true \/ d = data.
Proof.
  unfold classify_body, information_rate_limited, note_is_advisory,
    py_lower, py_str_in, pybind.
  repeat case_match; simplify_eq; intros; simplify_eq;
    (by right) || (left; apply has_key_singleton).
Qed.

Section AvRuns.

Variables (E : env) (key : string) (p : params).

Local Abbreviation q := (<[ "apikey" := key ]> p).

(** Writing the key into the request again changes nothing. *)
Lemma av_attempts_keyed (idx : list nat) (w : trace) :
  av_attempts E key p idx w = av_attempts E key q idx w.
Proof. destruct idx as [|i rest]; [reflexivity |]. cbn [av_attempts]. by rewrite apikey_idem. Qed.

Lemma av_attempts_transient (i : nat) (rest : list nat) (w : trace) :
  transient_outcome (requests_get E q (attempts w)) = true ->
  av_attempts E key q (i :: rest) w
  = av_attempts E key q rest (w ++ retried_attempt (EvGet q) i).
Proof.
  intros H. rewrite <- (av_attempts_keyed (i :: rest)).
  destruct (requests_get E q (attempts w)) as [t|t|data] eqn:Ho.
  - by rewrite (av_attempts_network_error E key p i rest w t Ho).
  - discriminate.
  - rewrite av_attempts_rate_limited; [reflexivity |]. by rewrite Ho.
Qed.

(** An attempt that is not retried ends the call after its request, with an
    error dictionary or with the body the provider sent. *)
Lemma av_attempts_final (i : nat) (rest : list nat) (w : trace) :
  transient_outcome (requests_get E q (attempts w)) = false ->
  exists d,
    av_attempts E key q (i :: rest) w = (d, w ++ [EvGet q])
    /\ (has_key "error" d = true \/ requests_get E q (attempts w) = AvBody d).
Proof.
  intros H. rewrite <- (av_attempts_keyed (i :: rest)). cbn [av_attempts].
  destruct (requests_get E q (attempts w)) as [t|t|data] eqn:Ho.
  - discriminate.
  - exists (av_unexpected t). split; [reflexivity |]. left. apply has_key_err.
  - destruct (classify_body data) as [[|d]|e] eqn:Hc.
    + apply classify_body_retry in Hc. cbn in H. cbn in Hc. congruence.
    + exists d. split; [reflexivity |].
      destruct (classify_body_return _ _ Hc) as [He | ->]; [by left | by right].
    + exists (av_unexpected (exn_text e)). split; [reflexivity |]. left. apply has_key_err.
Qed.

(** After [k] transient attempts the loop stands at its [k]-th index. *)
Lemma av_attempts_skip (k : nat) :
  forall (a n : nat) (w : trace),
    (k <= n)%nat ->
    (forall j, (j < k)%nat ->
               transient_outcome (requests_get E q (attempts w + j)) = true) ->
    av_attempts E key q (seq a n) w
    = av_attempts E key q (seq (a + k) (n - k)) (w ++ retried_attempts (EvGet q) a k).
Proof.
  induction k as [|k IH]; intros a n w Hk Hj.
  - unfold retried_attempts. cbn. rewrite app_nil_r.
    by replace (a + 0)%nat with a by lia; replace (n - 0)%nat with n by lia.
  - destruct n as [|n]; [lia |]. cbn [seq].
    rewrite av_attempts_transient.
    2:{ specialize (Hj 0%nat ltac:(lia)). by rewrite Nat.add_0_r in Hj. }
    rewrite (IH (S a) n (w ++ retried_attempt (EvGet q) a)).
    + rewrite retried_attempts_S, <- app_assoc.
      by replace (S a + k)%nat with (a + S k)%nat by lia.
    + lia.
    + intros j Hlt. rewrite attempts_retried_attempt by reflexivity.
      replace (S (attempts w) + j)%nat with (attempts w + S j)%nat by lia.
      apply Hj. lia.
Qed.

(** The shape of every run of the loop from index [a]: [k] retried attempts,
    then either nothing more (all [n] indices used up) or one last
    request. *)
Lemma av_attempts_shape (n : nat) :
  forall (a : nat) (w : trace),
    exists (k : nat) (final : trace),
      snd (av_attempts E key q (seq a n) w) = w ++ retried_attempts (EvGet q) a k ++ final
      /\ ((k = n /\ final = [] /\ fst (av_attempts E key q (seq a n) w) = av_retries_exhausted)
          \/ ((k < n)%nat /\ final = [EvGet q]))
      /\ (has_key "error" (fst (av_attempts E key q (seq a n) w)) = true
          \/ exists j, requests_get E q j = AvBody (fst (av_attempts E key q (seq a n) w))).
Proof.
  induction n as [|n IH]; intros a w.
  - exists 0%nat, []. cbn. rewrite app_nil_r. split; [reflexivity |].
    split; [by left | left; apply has_key_err].
  - cbn [seq].
    destruct (transient_outcome (requests_get E q (attempts w))) eqn:Ht.
    + rewrite (av_attempts_transient _ _ _ Ht).
      destruct (IH (S a) (w ++ retried_attempt (EvGet q) a)) as (k & final & Htr & Hend & Hres).
      exists (S k), final. rewrite Htr, retried_attempts_S, <- !app_assoc.
      split; [reflexivity |]. split; [| exact Hres].
      destruct Hend as [(-> & -> & Hex) | (Hlt & ->)]; [left | right]; repeat split; try done.
      lia.
    + destruct (av_attempts_final a (seq (S a) n) w Ht) as (d & Hrun & Hd).
      exists 0%nat, [EvGet q]. rewrite Hrun. cbn [fst snd]. split; [reflexivity |].
      split; [right; split; [lia | reflexivity] |].
      destruct Hd as [Hd | Hd]; [by left | right; by eexists].
Qed.

End AvRuns.

(** [k] retried attempts from index [a] sleep [2^(a+k) - 2^a] seconds. *)
Lemma total_sleep_retried_attempts (ev : event) (a k : nat) :
  is_attempt ev = true ->
  total_sleep (retried_attempts ev a k) = (2 ^ Z.of_nat (a + k) - 2 ^ Z.of_nat a)%Z.
Proof.
  intros Hev. revert a. induction k as [|k IH]; intros a.
  - rewrite Nat.add_0_r. unfold retried_attempts. cbn. lia.
  - rewrite retried_attempts_S, total_sleep_app, IH.
    replace (S a + k)%nat with (a + S k)%nat by lia.
    assert (Hone : total_sleep (retried_attempt ev a) = (2 ^ Z.of_nat a)%Z).
    { unfold retried_attempt, total_sleep. rewrite <- backoff_delay_base.
      destruct ev; try discriminate; cbn; lia. }
    rewrite Hone. rewrite (Nat2Z.inj_succ a), Z.pow_succ_r by lia. lia.
Qed.

Lemma fetch_not_configured (E : env) (p : params) (w : trace) :
  key_set (ALPHA_VANTAGE_API_KEY E) = false ->
  fetch_alpha_vantage_data E p w = (av_not_configured, w).
Proof.
  intros H. unfold fetch_alpha_vantage_data. unfold key_set in H.
  destruct (ALPHA_VANTAGE_API_KEY E) as [k|]; [| reflexivity]. by rewrite H.
Qed.

Lemma fetch_configured (E : env) (key : string) (p : params) (w : trace) :
  ALPHA_VANTAGE_API_KEY E = Some key ->
  PyStr.nonempty key = true ->
  fetch_alpha_vantage_data E p w
  = av_attempts E key (<[ "apikey" := key ]> p) (seq 0 max_retries) w.
Proof.
  intros Hkey Hset. unfold fetch_alpha_vantage_data. rewrite Hkey, Hset.
  apply av_attempts_keyed.
Qed.

(** Every run of the financial-data client with a credential: some number
    [k] of retried attempts with the doubling delays, then either the
    max-retries error (all five used up) or one last request. Every request
    is the caller's parameters with the key; nothing else is recorded. *)
Theorem fetch_run_shape (E : env) (key : string) (p : params) (w : trace) :
  ALPHA_VANTAGE_API_KEY E = Some key ->
  PyStr.nonempty key = true ->
  exists (k : nat) (final : trace),
    snd (fetch_alpha_vantage_data E p w)
    = w ++ retried_attempts (EvGet (<[ "apikey" := key ]> p)) 0 k ++ final
    /\ ((k = max_retries /\ final = []
         /\ fst (fetch_alpha_vantage_data E p w) = av_retries_exhausted)
        \/ ((k < max_retries)%nat /\ final = [EvGet (<[ "apikey" := key ]> p)])).
Proof.
  intros Hkey Hset. rewrite (fetch_configured E key p w Hkey Hset).
  destruct (av_attempts_shape E key p max_retries 0 w) as (k & final & Htr & Hend & _).
  by exists k, final.
Qed.

(** With a credential: between one and five requests, and at most 31
    seconds of sleep. *)
Lemma av_attempts_cost (E : env) (key : string) (p : params) (w : trace) :
  (attempts w
   < attempts (snd (av_attempts E key (<[ "apikey" := key ]> p) (seq 0 max_retries) w))
   <= attempts w + max_retries)%nat
  /\ (total_sleep w
      <= total_sleep (snd (av_attempts E key (<[ "apikey" := key ]> p) (seq 0 max_retries) w))
      <= total_sleep w + 31)%Z.
Proof.
  destruct (av_attempts_shape E key p max_retries 0 w) as (k & final & -> & Hend & _).
  rewrite !attempts_app, !total_sleep_app.
  rewrite attempts_retried_attempts, total_sleep_retried_attempts by reflexivity.
  assert (Hpow : (1 <= 2 ^ Z.of_nat k <= 32)%Z).
  { split; [pose proof (Z.pow_pos_nonneg 2 (Z.of_nat k)); lia |].
    change 32%Z with (2 ^ Z.of_nat max_retries)%Z.
    apply Z.pow_le_mono_r; [lia |].
    destruct Hend as [(-> & _) | (Hlt & _)]; lia. }
  cbn [Nat.add] in *. change (2 ^ Z.of_nat 0)%Z with 1%Z.
  destruct Hend as [(-> & -> & _) | (Hlt & ->)].
  - change (attempts []) with 0%nat. change (total_sleep []) with 0%Z.
    unfold max_retries. split; lia.
  - change (attempts [EvGet (<[ "apikey" := key ]> p)]) with 1%nat.
    change (total_sleep [EvGet (<[ "apikey" := key ]> p)]) with 0%Z.
    split; lia.
Qed.

(** The cost of one call of the client, with or without a credential. *)
Lemma fetch_cost (E : env) (p : params) (w : trace) :
  (attempts w <= attempts (snd (fetch_alpha_vantage_data E p w)) <= attempts w + max_retries)%nat
  /\ (total_sleep w <= total_sleep (snd (fetch_alpha_vantage_data E p w))
      <= total_sleep w + 31)%Z.
Proof.
  destruct (key_set (ALPHA_VANTAGE_API_KEY E)) eqn:Hset.
  - unfold key_set in Hset.
    destruct (ALPHA_VANTAGE_API_KEY E) as [key|] eqn:Hkey; [| discriminate].
    rewrite (fetch_configured E key p w Hkey Hset).
    pose proof (av_attempts_cost E key p w). lia.
  - rewrite (fetch_not_configured E p w Hset). cbn [snd]. lia.
Qed.

(** A call of the financial-data client makes at most five requests and
    sleeps at most 31 seconds in all; with a credential it makes at least
    one request, without one it leaves the trace as it is. *)
Theorem fetch_bounded (E : env) (p : params) (w : trace) :
  (attempts (snd (fetch_alpha_vantage_data E p w)) <= attempts w + max_retries)%nat
  /\ (total_sleep w <= total_sleep (snd (fetch_alpha_vantage_data E p w)) <= total_sleep w + 31)%Z
  /\ (if key_set (ALPHA_VANTAGE_API_KEY E)
      then (attempts w < attempts (snd (fetch_alpha_vantage_data E p w)))%nat
      else snd (fetch_alpha_vantage_data E p w) = w).
Proof.
  split; [apply fetch_cost |]. split; [apply fetch_cost |].
  destruct (key_set (ALPHA_VANTAGE_API_KEY E)) eqn:Hset.
  - unfold key_set in Hset.
    destruct (ALPHA_VANTAGE_API_KEY E) as [key|] eqn:Hkey; [| discriminate].
    rewrite (fetch_configured E key p w Hkey Hset).
    apply av_attempts_cost.
  - by rewrite (fetch_not_configured E p w Hset).
Qed.

(** What the financial-data client returns either has the key "error" or is,
    unchanged, a body that the provider sent in answer to the keyed
    request. *)
Theorem fetch_result_error_or_body (E : env) (p : params) (w : trace) :
  has_key "error" (fst (fetch_alpha_vantage_data E p w)) = true
  \/ exists key j,
       ALPHA_VANTAGE_API_KEY E = Some key
       /\ requests_get E (<[ "apikey" := key ]> p) j = AvBody (fst (fetch_alpha_vantage_data E p w)).
Proof.
  destruct (key_set (ALPHA_VANTAGE_API_KEY E)) eqn:Hset.
  - unfold key_set in Hset.
    destruct (ALPHA_VANTAGE_API_KEY E) as [key|] eqn:Hkey; [| discriminate].
    rewrite (fetch_configured E key p w Hkey Hset).
    destruct (av_attempts_shape E key p max_retries 0 w) as (k & final & _ & _ & [H | [j H]]).
    + by left.
    + right. by exists key, j.
  - rewrite (fetch_not_configured E p w Hset). left. apply has_key_err.
Qed.

(** When the first [k] attempts (fewer than five) end in a way that is
    retried and the next one brings a body that ends the call with [d], the
    client returns [d] after [k + 1] requests and the [k] doubling sleeps. *)
Theorem fetch_recovers_after_transient
  (E : env) (key : string) (p : params) (w : trace) (k : nat) (data d : dict) :
  ALPHA_VANTAGE_API_KEY E = Some key ->
  PyStr.nonempty key = true ->
  (k < max_retries)%nat ->
  (forall j, (j < k)%nat ->
     transient_outcome (requests_get E (<[ "apikey" := key ]> p) (attempts w + j)) = true) ->
  requests_get E (<[ "apikey" := key ]> p) (attempts w + k) = AvBody data ->
  classify_body data = Returns (AvReturn d) ->
  fetch_alpha_vantage_data E p w
  = (d, w ++ retried_attempts (EvGet (<[ "apikey" := key ]> p)) 0 k
          ++ [EvGet (<[ "apikey" := key ]> p)]).
Proof.
  intros Hkey Hset Hk Htr Hbody Hc. rewrite (fetch_configured E key p w Hkey Hset).
  rewrite (av_attempts_skip E key p k 0 max_retries w) by (first [lia | exact Htr]).
  cbn [Nat.add]. unfold max_retries in *.
  destruct (5 - k)%nat as [|n] eqn:Hn; [lia |]. cbn [seq].
  rewrite <- av_attempts_keyed.
  rewrite (av_attempts_body E key p k (seq (S k) n) _ data d).
  - by rewrite <- app_assoc.
  - rewrite attempts_app, attempts_retried_attempts by reflexivity. exact Hbody.
  - exact Hc.
Qed.

(** When all five attempts end in a way that is retried (network errors and
    rate-limited bodies, in any mix), the client returns the max-retries
    error after five requests and the sleeps 1, 2, 4, 8 and 16. *)
Theorem fetch_all_transient_exhausts (E : env) (key : string) (p : params) (w : trace) :
  ALPHA_VANTAGE_API_KEY E = Some key ->
  PyStr.nonempty key = true ->
  (forall j, (j < max_retries)%nat ->
     transient_outcome (requests_get E (<[ "apikey" := key ]> p) (attempts w + j)) = true) ->
  fetch_alpha_vantage_data E p w
  = (av_retries_exhausted,
     w ++ retried_attempts (EvGet (<[ "apikey" := key ]> p)) 0 max_retries)
  /\ sleeps (retried_attempts (EvGet (<[ "apikey" := key ]> p)) 0 max_retries)
     = [1; 2; 4; 8; 16]%Z.
Proof.
  intros Hkey Hset Htr. split; [| reflexivity].
  rewrite (fetch_configured E key p w Hkey Hset).
  by rewrite (av_attempts_skip E key p max_retries 0 max_retries w) by (first [lia | exact Htr]).
Qed.

(** A body with no "Error Message", whose "Information" (if any) is a text
    that mentions no rate limit and whose "Note" (if any) is a text, is
    returned as it is, after one request. *)
Theorem fetch_clean_body_passthrough
  (E : env) (key : string) (p : params) (w : trace) (data : dict) :
  ALPHA_VANTAGE_API_KEY E = Some key ->
  PyStr.nonempty key = true ->
  requests_get E (<[ "apikey" := key ]> p) (attempts w) = AvBody data ->
  data !! "Error Message" = None ->
  (forall v, data !! "Information" = Some v ->
     exists t, v = JStr t /\ PyStr.str_in "rate limit" (PyStr.lower t) = false) ->
  (forall v, data !! "Note" = Some v -> exists t, v = JStr t) ->
  fetch_alpha_vantage_data E p w = (data, w ++ [EvGet (<[ "apikey" := key ]> p)]).
Proof.
  intros Hkey Hset Hbody Hmsg Hinfo Hnote.
  unfold fetch_alpha_vantage_data. rewrite Hkey, Hset.
  change (seq 0 max_retries) with (0 :: seq 1 4)%nat.
  apply av_attempts_body with (data := data).
  - exact Hbody.
  - unfold classify_body, information_rate_limited, note_is_advisory. rewrite Hmsg.
    destruct (data !! "Information") as [v|].
    + destruct (Hinfo v eq_refl) as (t & -> & Hno). cbn. rewrite Hno.
      destruct (data !! "Note") as [n|]; [| reflexivity].
      by destruct (Hnote n eq_refl) as (t' & ->).
    + cbn. destruct (data !! "Note") as [n|]; [| reflexivity].
      by destruct (Hnote n eq_refl) as (t' & ->).
Qed.

(** An exception that is no [RequestException] ends the call at once, with
    the unexpected-error message that carries its text: one request, no
    sleep. *)
Theorem fetch_unexpected_exception_not_retried
  (E : env) (key : string) (p : params) (w : trace) (t : string) :
  ALPHA_VANTAGE_API_KEY E = Some key ->
  PyStr.nonempty key = true ->
  requests_get E (<[ "apikey" := key ]> p) (attempts w) = AvException t ->
  fetch_alpha_vantage_data E p w
  = (av_unexpected t, w ++ [EvGet (<[ "apikey" := key ]> p)]).
Proof.
  intros Hkey Hset Ho. unfold fetch_alpha_vantage_data. rewrite Hkey, Hset.
  change (seq 0 max_retries) with (0 :: seq 1 4)%nat. cbn [av_attempts]. by rewrite Ho.
Qed.

(** An "Error Message" that is not a text cannot be lowered: the call ends
    at once with the unexpected-error message that names the value's type,
    whatever else the body holds. *)
Theorem fetch_error_message_not_text
  (E : env) (key : string) (p : params) (w : trace) (data : dict) (v : json) :
  ALPHA_VANTAGE_API_KEY E = Some key ->
  PyStr.nonempty key = true ->
  requests_get E (<[ "apikey" := key ]> p) (attempts w) = AvBody data ->
  data !! "Error Message" = Some v ->
  type_name v <> "str" ->
  fetch_alpha_vantage_data E p w
  = (av_unexpected ("'" +:+ type_name v +:+ "' object has no attribute 'lower'"),
     w ++ [EvGet (<[ "apikey" := key ]> p)]).
Proof.
  intros Hkey Hset Ho Hv Hty. unfold fetch_alpha_vantage_data. rewrite Hkey, Hset.
  change (seq 0 max_retries) with (0 :: seq 1 4)%nat. cbn [av_attempts]. rewrite Ho.
  unfold classify_body. rewrite Hv. by destruct v.
Qed.

(** ** Runs of the generative-text client *)

(** What an attempt that is not retried makes the client do. *)
Lemma gm_attempts_final (E : env) (prompt : string) (i : nat) (rest : list nat) (w : trace) :
  quota_exception (send_message E prompt (attempts w)) = false ->
  gm_attempts E prompt (i :: rest) w
  = (match try_block (send_message E prompt (attempts w)) with
     | inr d => Returns d
     | inl t =>
         if PyStr.str_in "rate limit" (PyStr.lower t)
         then Raises (NameError "name 'retries' is not defined")
         else Returns (gm_unexpected t)
     end, w ++ [EvSend prompt]).
Proof.
  intros H. cbn [gm_attempts]. unfold quota_exception in H.
  destruct (try_block (send_message E prompt (attempts w))) as [t|d]; [| reflexivity].
  unfold should_retry. rewrite H.
  by destruct (PyStr.str_in "rate limit" (PyStr.lower t)).
Qed.

Lemma gm_attempts_retry (E : env) (prompt : string) (i : nat) (rest : list nat) (w : trace) :
  quota_exception (send_message E prompt (attempts w)) = true ->
  gm_attempts E prompt (i :: rest) w
  = gm_attempts E prompt rest (w ++ retried_attempt (EvSend prompt) i).
Proof.
  intros H. cbn [gm_attempts]. unfold quota_exception in H.
  destruct (try_block (send_message E prompt (attempts w))) as [t|d]; [| discriminate].
  rewrite (should_retry_quota _ H). unfold retried_attempt. by rewrite <- app_assoc.
Qed.

(** After [k] quota exceptions the loop stands at its [k]-th index. *)
Lemma gm_attempts_skip (E : env) (prompt : string) (k : nat) :
  forall (a n : nat) (w : trace),
    (k <= n)%nat ->
    (forall j, (j < k)%nat ->
               quota_exception (send_message E prompt (attempts w + j)) = true) ->
    gm_attempts E prompt (seq a n) w
    = gm_attempts E prompt (seq (a + k) (n - k)) (w ++ retried_attempts (EvSend prompt) a k).
Proof.
  induction k as [|k IH]; intros a n w Hk Hj.
  - unfold retried_attempts. cbn. rewrite app_nil_r.
    by replace (a + 0)%nat with a by lia; replace (n - 0)%nat with n by lia.
  - destruct n as [|n]; [lia |]. cbn [seq].
    rewrite gm_attempts_retry.
    2:{ specialize (Hj 0%nat ltac:(lia)). by rewrite Nat.add_0_r in Hj. }
    rewrite (IH (S a) n (w ++ retried_attempt (EvSend prompt) a)).
    + rewrite retried_attempts_S, <- app_assoc.
      by replace (S a + k)%nat with (a + S k)%nat by lia.
    + lia.
    + intros j Hlt. rewrite attempts_retried_attempt by reflexivity.
      replace (S (attempts w) + j)%nat with (attempts w + S j)%nat by lia.
      apply Hj. lia.
Qed.

(** The shape of every run of the loop from index [a], and the one way in
    which it raises. *)
Lemma gm_attempts_shape (E : env) (prompt : string) (n : nat) :
  forall (a : nat) (w : trace),
    exists (k : nat) (final : trace),
      snd (gm_attempts E prompt (seq a n) w)
      = w ++ retried_attempts (EvSend prompt) a k ++ final
      /\ ((k = n /\ final = []
           /\ fst (gm_attempts E prompt (seq a n) w) = Returns gm_retries_exhausted)
          \/ ((k < n)%nat /\ final = [EvSend prompt]))
      /\ (forall e, fst (gm_attempts E prompt (seq a n) w) = Raises e ->
            e = NameError "name 'retries' is not defined"
            /\ exists j, rate_limit_exception (send_message E prompt j) = true).
Proof.
  induction n as [|n IH]; intros a w.
  - exists 0%nat, []. cbn. rewrite app_nil_r. split; [reflexivity |].
    split; [by left | discriminate].
  - cbn [seq].
    destruct (quota_exception (send_message E prompt (attempts w))) eqn:Hq.
    + rewrite (gm_attempts_retry _ _ _ _ _ Hq).
      destruct (IH (S a) (w ++ retried_attempt (EvSend prompt) a))
        as (k & final & Htr & Hend & Hres).
      exists (S k), final. rewrite Htr, retried_attempts_S, <- !app_assoc.
      split; [reflexivity |]. split; [| exact Hres].
      destruct Hend as [(-> & -> & Hex) | (Hlt & ->)]; [left | right]; repeat split; try done.
      lia.
    + rewrite (gm_attempts_final _ _ _ _ _ Hq).
      exists 0%nat, [EvSend prompt]. cbn [fst snd]. split; [reflexivity |].
      split; [right; split; [lia | reflexivity] |].
      intros e He. unfold quota_exception in Hq.
      destruct (try_block (send_message E prompt (attempts w))) as [t|d] eqn:Ho; [| discriminate].
      destruct (PyStr.str_in "rate limit" (PyStr.lower t)) eqn:Hr; [| discriminate].
      split; [congruence |]. exists (attempts w). unfold rate_limit_exception.
      by rewrite Ho, Hq, Hr.
Qed.

Lemma generate_not_configured (E : env) (prompt : string) (w : trace) :
  key_set (GEMINI_API_KEY E) = false ->
  generate_gemini_content E prompt w = (Returns gm_not_configured, w).
Proof. intros H. unfold generate_gemini_content. by rewrite H. Qed.

Lemma generate_configured (E : env) (prompt : string) (w : trace) :
  key_set (GEMINI_API_KEY E) = true ->
  generate_gemini_content E prompt w = gm_attempts E prompt (seq 0 max_retries) w.
Proof. intros H. unfold generate_gemini_content. by rewrite H. Qed.

(** A call of the generative-text client makes at most five attempts and
    sleeps at most 31 seconds in all; what it records is [k] retried
    attempts with the doubling delays and then at most one last attempt. *)
Theorem generate_bounded (E : env) (prompt : string) (w : trace) :
  (exists (k : nat) (final : trace),
     snd (generate_gemini_content E prompt w)
     = w ++ retried_attempts (EvSend prompt) 0 k ++ final
     /\ (k <= max_retries)%nat /\ (final = [] \/ final = [EvSend prompt]))
  /\ (attempts (snd (generate_gemini_content E prompt w)) <= attempts w + max_retries)%nat
  /\ (total_sleep w <= total_sleep (snd (generate_gemini_content E prompt w))
      <= total_sleep w + 31)%Z.
Proof.
  destruct (key_set (GEMINI_API_KEY E)) eqn:Hset.
  - rewrite (generate_configured E prompt w Hset).
    destruct (gm_attempts_shape E prompt max_retries 0 w) as (k & final & -> & Hend & _).
    assert (Hk : (k <= max_retries)%nat) by (destruct Hend as [(-> & _) | (Hlt & _)]; lia).
    assert (Hfinal : final = [] \/ final = [EvSend prompt])
      by (destruct Hend as [(_ & -> & _) | (_ & ->)]; [by left | by right]).
    split; [by exists k, final |].
    rewrite !attempts_app, !total_sleep_app.
    rewrite attempts_retried_attempts, total_sleep_retried_attempts by reflexivity.
    assert (Hpow : (1 <= 2 ^ Z.of_nat k <= 32)%Z).
    { split; [pose proof (Z.pow_pos_nonneg 2 (Z.of_nat k)); lia |].
      change 32%Z with (2 ^ Z.of_nat max_retries)%Z.
      apply Z.pow_le_mono_r; lia. }
    cbn [Nat.add] in *. change (2 ^ Z.of_nat 0)%Z with 1%Z.
    destruct Hend as [(-> & -> & _) | (Hlt & ->)].
    + change (attempts []) with 0%nat. change (total_sleep []) with 0%Z.
      unfold max_retries. split; lia.
    + change (attempts [EvSend prompt]) with 1%nat.
      change (total_sleep [EvSend prompt]) with 0%Z. split; lia.
  - rewrite (generate_not_configured E prompt w Hset). cbn [snd].
    split; [| split; lia].
    exists 0%nat, []. cbn. rewrite app_nil_r. split; [reflexivity |].
    split; [unfold max_retries; lia | by left].
Qed.

(** The generative-text client raises in one way only: a NameError, after
    an attempt whose exception mentions a rate limit and no quota. *)
Theorem generate_raises_only_name_error (E : env) (prompt : string) (w : trace) (e : exn) :
  fst (generate_gemini_content E prompt w) = Raises e ->
  e = NameError "name 'retries' is not defined"
  /\ exists j, rate_limit_exception (send_message E prompt j) = true.
Proof.
  destruct (key_set (GEMINI_API_KEY E)) eqn:Hset.
  - rewrite (generate_configured E prompt w Hset).
    destruct (gm_attempts_shape E prompt max_retries 0 w) as (k & final & _ & _ & Hres).
    apply Hres.
  - rewrite (generate_not_configured E prompt w Hset). discriminate.
Qed.

(** With a provider that never answers by a rate-limit exception without
    quota, the client always returns a dictionary. *)
Theorem generate_returns_without_rate_limit (E : env) (prompt : string) (w : trace) :
  (forall j, rate_limit_exception (send_message E prompt j) = false) ->
  exists d, fst (generate_gemini_content E prompt w) = Returns d.
Proof.
  intros Hno. destruct (fst (generate_gemini_content E prompt w)) as [d|e] eqn:Hres.
  - by exists d.
  - exfalso. destruct (key_set (GEMINI_API_KEY E)) eqn:Hset.
    + rewrite (generate_configured E prompt w Hset) in Hres.
      destruct (gm_attempts_shape E prompt max_retries 0 w) as (k & final & _ & _ & Hraise).
      destruct (Hraise e Hres) as (_ & j & Hj).
      rewrite Hno in Hj. discriminate.
    + rewrite (generate_not_configured E prompt w Hset) in Hres. discriminate.
Qed.

(** Quota exceptions on all five attempts: the client returns the
    max-retries error after five attempts and the sleeps 1, 2, 4, 8, 16. *)
Theorem generate_quota_exhausts (E : env) (prompt : string) (w : trace) :
  key_set (GEMINI_API_KEY E) = true ->
  (forall j, (j < max_retries)%nat ->
     quota_exception (send_message E prompt (attempts w + j)) = true) ->
  generate_gemini_content E prompt w
  = (Returns gm_retries_exhausted, w ++ retried_attempts (EvSend prompt) 0 max_retries)
  /\ sleeps (retried_attempts (EvSend prompt) 0 max_retries) = [1; 2; 4; 8; 16]%Z.
Proof.
  intros Hset Hq. split; [| reflexivity].
  rewrite (generate_configured E prompt w Hset).
  by rewrite (gm_attempts_skip E prompt max_retries 0 max_retries w) by (first [lia | exact Hq]).
Qed.

(** After [k] quota exceptions (fewer than five) a response with content is
    returned as success with its text, after [k + 1] attempts and the [k]
    doubling sleeps. *)
Theorem generate_recovers_after_quota
  (E : env) (prompt : string) (w : trace) (k : nat) (r : gen_response) :
  key_set (GEMINI_API_KEY E) = true ->
  (k < max_retries)%nat ->
  (forall j, (j < k)%nat ->
     quota_exception (send_message E prompt (attempts w + j)) = true) ->
  send_message E prompt (attempts w + k) = GmResponse r ->
  has_content r = true ->
  generate_gemini_content E prompt w
  = (Returns {[ "success" := JStr (text r) ]},
     w ++ retried_attempts (EvSend prompt) 0 k ++ [EvSend prompt]).
Proof.
  intros Hset Hk Hq Hr Hc. rewrite (generate_configured E prompt w Hset).
  rewrite (gm_attempts_skip E prompt k 0 max_retries w) by (first [lia | exact Hq]).
  cbn [Nat.add]. unfold max_retries in *.
  destruct (5 - k)%nat as [|n] eqn:Hn; [lia |]. cbn [seq].
  rewrite gm_attempts_final;
    rewrite attempts_app, attempts_retried_attempts by reflexivity; rewrite Hr.
  - by rewrite (try_block_content r Hc), <- app_assoc.
  - unfold quota_exception. by rewrite (try_block_content r Hc).
Qed.

(** An exception that mentions neither a quota nor a rate limit ends the
    call at once with the error that carries its text: one attempt, no
    sleep. *)
Theorem generate_other_exception_not_retried
  (E : env) (prompt t : string) (w : trace) :
  key_set (GEMINI_API_KEY E) = true ->
  send_message E prompt (attempts w) = GmException t ->
  PyStr.str_in "quota" (PyStr.lower t) = false ->
  PyStr.str_in "rate limit" (PyStr.lower t) = false ->
  generate_gemini_content E prompt w = (Returns (gm_unexpected t), w ++ [EvSend prompt]).
Proof.
  intros Hset Ho H1 H2. rewrite (generate_configured E prompt w Hset).
  change (seq 0 max_retries) with (0 :: seq 1 4)%nat.
  by apply gm_attempts_other.
Qed.

(** ** Sanitising tickers and keywords *)

Lemma upper_ascii_ticker_char (a : ascii) :
  ticker_char a = true -> upper_ticker_char (PyStr.upper_ascii a) = true.
Proof.
  destruct a as [b0 b1 b2 b3 b4 b5 b6 b7].
  destruct b0, b1, b2, b3, b4, b5, b6, b7; vm_compute; intros H;
    first [reflexivity | discriminate H].
Qed.

Lemma upper_ticker_char_fixed (a : ascii) :
  upper_ticker_char a = true -> ticker_char a = true /\ PyStr.upper_ascii a = a.
Proof.
  destruct a as [b0 b1 b2 b3 b4 b5 b6 b7].
  destruct b0, b1, b2, b3, b4, b5, b6, b7; vm_compute; intros H;
    first [by split | discriminate H].
Qed.

Lemma all_chars_filter (f : ascii -> bool) (s : string) :
  all_chars f (PyStr.filter_chars f s) = true.
Proof.
  induction s as [|a s IH]; [reflexivity |]. cbn.
  destruct (f a) eqn:Hf; [| exact IH]. cbn. by rewrite Hf.
Qed.

Lemma filter_chars_fixed (f : ascii -> bool) (s : string) :
  all_chars f s = true -> PyStr.filter_chars f s = s.
Proof.
  induction s as [|a s IH]; [reflexivity |]. cbn.
  intros [Ha Hs]%andb_prop. by rewrite Ha, IH.
Qed.

Lemma filter_chars_length (f : ascii -> bool) (s : string) :
  (String.length (PyStr.filter_chars f s) <= String.length s)%nat.
Proof.
  induction s as [|a s IH]; [reflexivity |]. cbn.
  destruct (f a); cbn; lia.
Qed.

Lemma map_chars_length (f : ascii -> ascii) (s : string) :
  String.length (PyStr.map_chars f s) = String.length s.
Proof. induction s as [|a s IH]; [reflexivity |]. cbn. by rewrite IH. Qed.

Lemma sanitize_upper_chars (ticker : string) :
  all_chars upper_ticker_char (sanitize ticker) = true.
Proof.
  unfold sanitize, PyStr.upper.
  pose proof (all_chars_filter ticker_char ticker) as H.
  induction (PyStr.filter_chars ticker_char ticker) as [|a s IH]; [reflexivity |].
  cbn in *. apply andb_prop in H as [Ha Hs].
  by rewrite (upper_ascii_ticker_char a Ha), IH.
Qed.

(** What a sanitised ticker is made of: upper-case letters, digits, and the
    three marks; and it is no longer than the ticker. *)
Theorem sanitize_alphabet (ticker : string) :
  all_chars upper_ticker_char (sanitize ticker) = true
  /\ (String.length (sanitize ticker) <= String.length ticker)%nat.
Proof.
  split; [apply sanitize_upper_chars |].
  unfold sanitize, PyStr.upper. rewrite map_chars_length. apply filter_chars_length.
Qed.

Lemma sanitize_fixed (s : string) :
  all_chars upper_ticker_char s = true -> sanitize s = s.
Proof.
  unfold sanitize, PyStr.upper.
  induction s as [|a s IH]; [reflexivity |]. cbn.
  intros [Ha Hs]%andb_prop.
  destruct (upper_ticker_char_fixed a Ha) as [Ht Hu].
  rewrite Ht. cbn. by rewrite Hu, IH.
Qed.

(** Sanitising twice is sanitising once: the handler could be given its own
    [sanitized_ticker] again. *)
Theorem sanitize_idempotent (ticker : string) :
  sanitize (sanitize ticker) = sanitize ticker.
Proof. apply sanitize_fixed, sanitize_upper_chars. Qed.

(** A keyword made of allowed characters only goes into the search
    unchanged, in its own letter case; as a ticker of the full report it is
    upper-cased and nothing else. *)
Theorem sanitize_keyword_clean_unchanged (keyword : string) :
  all_chars ticker_char keyword = true ->
  sanitize_keyword keyword = keyword /\ sanitize keyword = PyStr.upper keyword.
Proof.
  intros H. unfold sanitize, sanitize_keyword.
  by rewrite (filter_chars_fixed ticker_char keyword H).
Qed.

(** ** The single-call routes *)

Lemma has_key_lookup (k : string) (d : dict) :
  has_key k d = true <-> exists v, d !! k = Some v.
Proof. unfold has_key. rewrite bool_decide_eq_true. reflexivity. Qed.

Lemma has_key_none (k : string) (d : dict) : has_key k d = false <-> d !! k = None.
Proof.
  unfold has_key. rewrite bool_decide_eq_false, <- eq_None_not_Some. reflexivity.
Qed.

(** Without a credential a single-call route answers 500 with the
    not-configured message and makes no request. *)
Theorem proxy_route_not_configured (E : env) (function ticker : string) (w : trace) :
  key_set (ALPHA_VANTAGE_API_KEY E) = false ->
  proxy_route E function ticker w
  = (error_response 500 (JStr "Alpha Vantage API key is not configured in the server."), w).
Proof.
  intros H. unfold proxy_route. by rewrite (fetch_not_configured E _ w H).
Qed.

(** ** The symbol search *)

Lemma is_not_na_spec (v : json) : is_not_na v = true <-> v <> JStr "N/A".
Proof.
  destruct v; cbn; try (split; [discriminate | reflexivity]).
  rewrite negb_true_iff, String.eqb_neq. split; [congruence |].
  intros H Hs. apply H. by rewrite Hs.
Qed.

Lemma match_option_valid (m : dict) (o : json) : match_option m = Some o -> valid_option o.
Proof.
  unfold match_option.
  destruct (truthy (get_or "1. symbol" JNull m) && is_not_na (get_or "1. symbol" JNull m))
    eqn:Hok; [| discriminate].
  apply andb_prop in Hok as [Ht Hna]. intros [= <-].
  eexists _, (get_or "1. symbol" JNull m). split; [reflexivity |].
  split; [apply lookup_insert_eq |]. split; [exact Ht |].
  split; [by apply is_not_na_spec |].
  rewrite !dom_insert_L, dom_empty_L. set_solver.
Qed.

(** On a dictionary the loop body computes [match_option]. *)
Lemma option_of_match_dict (m : dict) : option_of_match (JObj m) = Returns (match_option m).
Proof.
  unfold option_of_match, match_option. cbn.
  by destruct (truthy (get_or "1. symbol" JNull m) && is_not_na (get_or "1. symbol" JNull m)).
Qed.

(** On anything else it raises at its first [get]. *)
Lemma option_of_match_not_dict (v : json) :
  type_name v <> "dict" ->
  option_of_match v
  = Raises (AttributeError ("'" +:+ type_name v +:+ "' object has no attribute 'get'")).
Proof. intros H. by destruct v. Qed.

(** Over dictionaries the loop filters and maps, keeping the order. *)
Lemma collect_options_dicts (ms : list dict) (options : list json) :
  collect_options (map JObj ms) options = Returns (options ++ omap match_option ms).
Proof.
  revert options. induction ms as [|m ms IH]; intros options.
  - cbn. by rewrite app_nil_r.
  - cbn [map collect_options]. rewrite option_of_match_dict. cbn [pybind].
    rewrite IH. cbn [omap list_omap].
    destruct (match_option m) as [o|]; [| reflexivity].
    by rewrite <- app_assoc.
Qed.

(** Whatever the matches are, the options that the loop returns are valid. *)
Lemma collect_options_valid (ms : list json) :
  forall options result,
    Forall valid_option options ->
    collect_options ms options = Returns result ->
    Forall valid_option result.
Proof.
  induction ms as [|m ms IH]; intros options result Hv Hrun.
  - cbn in Hrun. by inversion Hrun; subst.
  - cbn [collect_options] in Hrun.
    destruct m as [| | | | | |d];
      try (rewrite option_of_match_not_dict in Hrun by discriminate; discriminate).
    rewrite option_of_match_dict in Hrun. cbn [pybind] in Hrun.
    eapply IH; [| exact Hrun].
    destruct (match_option d) as [o|] eqn:Ho; [| exact Hv].
    apply Forall_app. split; [exact Hv |].
    constructor; [by eapply match_option_valid | constructor].
Qed.

(** A keyword without any allowed character is refused with 400 before any
    request. *)
Theorem search_invalid_keyword (E : env) (keyword : string) (w : trace) :
  sanitize_keyword keyword = "" ->
  search_stock_symbol E keyword w = (Returns invalid_keyword_response, w).
Proof. intros H. unfold search_stock_symbol. by rewrite H. Qed.

(** The responses of the search: 400 for an unusable keyword, 500 with the
    error of the client when the client failed and only then, 404 when no
    option is left, and otherwise 200 with a list that is not empty and
    holds valid options only. *)
Theorem search_responses (E : env) (keyword : string) (w w' : trace) (resp : response) :
  search_stock_symbol E keyword w = (Returns resp, w') ->
  resp = invalid_keyword_response
  \/ (exists v,
        fst (fetch_alpha_vantage_data E (search_params (sanitize_keyword keyword)) w)
          !! "error" = Some v
        /\ resp = error_response 500 v)
  \/ resp = no_match_response
  \/ (exists o options,
        resp = {| body := JList (o :: options); status := 200 |}
        /\ Forall valid_option (o :: options)).
Proof.
  unfold search_stock_symbol.
  destruct (negb (PyStr.nonempty (sanitize_keyword keyword))).
  { intros [= <- <-]. by left. }
  fold (search_params (sanitize_keyword keyword)).
  destruct (fetch_alpha_vantage_data E (search_params (sanitize_keyword keyword)) w)
    as [search_data w1].
  cbn [fst]. destruct (has_key "error" search_data) eqn:He.
  { intros [= <- <-]. right; left.
    apply has_key_lookup in He as [v Hv]. exists v. split; [exact Hv |].
    unfold get_or. by rewrite Hv. }
  destruct (py_iter (get_or "bestMatches" (JList []) search_data)) as [matches|e];
    [| intros [=]].
  cbn [pybind].
  destruct (collect_options matches []) as [options|e] eqn:Hc; [| intros [=]].
  cbn [pybind].
  destruct options as [|o options]; cbn [truthy negb].
  - apply has_key_none in He. unfold get_or. rewrite He. cbn.
    intros [= <- <-]. right; right; by left.
  - intros [= <- <-]. right; right; right. exists o, options. split; [reflexivity |].
    by apply (collect_options_valid matches [] _ (Forall_nil_2 _) Hc).
Qed.

(** When the client succeeds and the matches are dictionaries (or the key
    "bestMatches" is missing), the answer lists, in the order of the
    matches, the option of every match whose symbol is usable; it is 404
    when there is none. *)
Theorem search_options_of_matches
  (E : env) (keyword : string) (w w' : trace) (search_data : dict) (ms : list dict) :
  sanitize_keyword keyword <> "" ->
  fetch_alpha_vantage_data E (search_params (sanitize_keyword keyword)) w = (search_data, w') ->
  search_data !! "error" = None ->
  get_or "bestMatches" (JList []) search_data = JList (map JObj ms) ->
  search_stock_symbol E keyword w
  = (Returns (match omap match_option ms with
              | [] => no_match_response
              | options => {| body := JList options; status := 200 |}
              end), w').
Proof.
  intros Hk Hf He Hm. unfold search_stock_symbol.
  destruct (sanitize_keyword keyword) as [|a s] eqn:Hs; [done |]. cbn [PyStr.nonempty negb].
  fold (search_params (String a s)). rewrite Hf.
  apply has_key_none in He as He'. rewrite He', Hm. cbn [py_iter pybind].
  rewrite collect_options_dicts. cbn [pybind app].
  destruct (omap match_option ms) as [|o options]; cbn [truthy negb]; [| reflexivity].
  unfold get_or. by rewrite He.
Qed.

(** A match that is not a dictionary, after matches that are, makes the
    search raise: the loop calls [get] on it. *)
Theorem search_match_not_dict_raises
  (E : env) (keyword : string) (w w' : trace) (search_data : dict)
  (ms : list dict) (v : json) (rest : list json) :
  sanitize_keyword keyword <> "" ->
  fetch_alpha_vantage_data E (search_params (sanitize_keyword keyword)) w = (search_data, w') ->
  search_data !! "error" = None ->
  search_data !! "bestMatches" = Some (JList (map JObj ms ++ v :: rest)) ->
  type_name v <> "dict" ->
  search_stock_symbol E keyword w
  = (Raises (AttributeError ("'" +:+ type_name v +:+ "' object has no attribute 'get'")), w').
Proof.
  intros Hk Hf He Hm Hv. unfold search_stock_symbol.
  destruct (sanitize_keyword keyword) as [|a s] eqn:Hs; [done |]. cbn [PyStr.nonempty negb].
  fold (search_params (String a s)). rewrite Hf.
  apply has_key_none in He as He'. rewrite He'.
  assert (Hbest : get_or "bestMatches" (JList []) search_data
                  = JList (map JObj ms ++ v :: rest)) by (unfold get_or; by rewrite Hm).
  rewrite Hbest. cbn [py_iter pybind]. clear Hm Hbest.
  assert (Hrun : forall options,
             collect_options (map JObj ms ++ v :: rest) options
             = Raises (AttributeError ("'" +:+ type_name v +:+ "' object has no attribute 'get'"))).
  { induction ms as [|m ms IH]; intros options.
    - cbn [map app collect_options]. by rewrite option_of_match_not_dict.
    - cbn [map app collect_options]. rewrite option_of_match_dict. cbn [pybind]. apply IH. }
  by rewrite Hrun.
Qed.

(** ** The full report: refusals, successes and cost *)

(** A ticker without any allowed character is refused with 400 before any
    request; no report is built. *)
Theorem full_report_invalid_ticker (E : env) (ticker : string) (w : trace) :
  sanitize ticker = "" ->
  get_full_stock_report E ticker w = (Returns invalid_ticker_response, w, None).
Proof. intros H. unfold get_full_stock_report. by rewrite H. Qed.

Lemma fetch_quote_ok
  (E : env) (s : string) (st : store) (data : dict) (w : trace) :
  fetch_alpha_vantage_data E (quote_params s) (log st) = (data, w) ->
  has_key "error" data = false ->
  fetch_quote E s st
  = (Returns tt,
     {| log := w;
        report_data :=
          set_global_quote (get_or "Global Quote" (JObj ∅) data) (report_data st) |}).
Proof.
  intros Hf He. unfold fetch_quote.
  rewrite (bind_returns _ _ _ _ _ (call_fetch_eq _ _ _ _ _ Hf)). by rewrite He.
Qed.

Lemma fetch_overview_ok
  (E : env) (s : string) (st : store) (data : dict) (w : trace) :
  fetch_alpha_vantage_data E (overview_params s) (log st) = (data, w) ->
  has_key "error" data = false ->
  fetch_overview E s st
  = (Returns tt, {| log := w; report_data := set_overview (JObj data) (report_data st) |}).
Proof.
  intros Hf He. unfold fetch_overview.
  rewrite (bind_returns _ _ _ _ _ (call_fetch_eq _ _ _ _ _ Hf)). by rewrite He.
Qed.

(** When the four sub-calls succeed (and the two lists are lists), the
    handler makes them in order, one after the other, and answers with the
    report built from them: the quote under "Global Quote", the overview as
    it is, the first three annual reports and the first three annual
    earnings, no narrative. Only when the quote and the overview are both
    empty is the answer the 404 not-found error. *)
Theorem full_report_all_succeed
  (E : env) (ticker : string) (w w1 w2 w3 w4 : trace)
  (dq dv di de : dict) (li le : list json) :
  sanitize ticker <> "" ->
  fetch_alpha_vantage_data E (quote_params (sanitize ticker)) w = (dq, w1) ->
  fetch_alpha_vantage_data E (overview_params (sanitize ticker)) w1 = (dv, w2) ->
  fetch_alpha_vantage_data E (income_params (sanitize ticker)) w2 = (di, w3) ->
  fetch_alpha_vantage_data E (earnings_params (sanitize ticker)) w3 = (de, w4) ->
  dq !! "error" = None -> dv !! "error" = None ->
  di !! "error" = None -> de !! "error" = None ->
  get_or "annualReports" (JList []) di = JList li ->
  get_or "annualEarnings" (JList []) de = JList le ->
  let r := {| symbol := sanitize ticker;
              global_quote := get_or "Global Quote" (JObj ∅) dq;
              overview := JObj dv;
              income_statement := JList (firstn 3 li);
              earnings := {[ "annualReports" := JList (firstn 3 le) ]};
              error := JNull |} in
  get_full_stock_report E ticker w
  = (Returns (if negb (truthy (get_or "Global Quote" (JObj ∅) dq)) && negb (truthy (JObj dv))
              then not_found_response
              else {| body := jsonify_report r; status := 200 |}),
     w4, Some r).
Proof.
  intros Hs Hq Hv Hi He Eq Ev Ei Ee Hli Hle r.
  apply has_key_none in Eq, Ev, Ei, Ee.
  unfold get_full_stock_report.
  destruct (sanitize ticker) as [|a s] eqn:Hst; [done |]. cbn [PyStr.nonempty negb].
  set (t := String a s) in *.
  set (r0 := initial_report t).
  set (r1 := set_global_quote (get_or "Global Quote" (JObj ∅) dq) r0).
  set (r2 := set_overview (JObj dv) r1).
  set (r3 := set_income_statement (JList (firstn 3 li)) r2).
  rewrite (bind_returns _ _ _ _ _
             (fetch_quote_ok E t {| log := w; report_data := r0 |} dq w1 Hq Eq)).
  rewrite (bind_returns _ _ _ _ _
             (fetch_overview_ok E t {| log := w1; report_data := r1 |} dv w2 Hv Ev)).
  assert (Hblock3 : fetch_income_statement E t {| log := w2; report_data := r2 |}
                    = (Returns tt, {| log := w3; report_data := r3 |})).
  { unfold fetch_income_statement. fold (income_params t).
    rewrite (bind_returns _ _ _ _ _
               (call_fetch_eq E (income_params t) {| log := w2; report_data := r2 |} di w3 Hi)).
    by rewrite Ei, Hli. }
  rewrite (bind_returns _ _ _ _ _ Hblock3).
  rewrite (bind_returns _ _ _ _ _
             (fetch_earnings_ok E t {| log := w3; report_data := r3 |} de w4 le He Ee Hle)).
  rewrite respond_without_narrative by reflexivity.
  cbn [report_data log]. subst r3 r2 r1 r0.
  cbn [set_earnings set_income_statement set_overview set_global_quote
       initial_report symbol global_quote overview income_statement earnings error].
  rewrite insert_empty. reflexivity.
Qed.

(** *** Cost *)

Lemma bounded_ret {A} (mu : trace -> Z) (a : A) : bounded_by mu 0 (ret a).
Proof. intros st. cbn. lia. Qed.










Section Cost.

Variables (mu : trace -> Z) (c : Z) (E : env) (s : string).
Hypothesis call_cost : forall p, bounded_by mu c (call_fetch E p).
Hypothesis cost_nonneg : (0 <= c)%Z.







End Cost.


(** ** The generation route *)

(** What the loop returns: an error dictionary, or the success dictionary
    with the text of a response that has content. *)
Lemma gm_attempts_result (E : env) (prompt : string) (n : nat) :
  forall (a : nat) (w : trace) (d : dict),
    fst (gm_attempts E prompt (seq a n) w) = Returns d ->
    (exists msg, d = err msg)
    \/ exists j r, send_message E prompt j = GmResponse r /\ has_content r = true
                   /\ d = {[ "success" := JStr (text r) ]}.
Proof.
  induction n as [|n IH]; intros a w d.
  - cbn. intros [= <-]. left. by eexists.
  - cbn [seq].
    destruct (quota_exception (send_message E prompt (attempts w))) eqn:Hq.
    + rewrite (gm_attempts_retry _ _ _ _ _ Hq). apply IH.
    + rewrite (gm_attempts_final _ _ _ _ _ Hq). cbn [fst].
      destruct (send_message E prompt (attempts w)) as [t|r] eqn:Ho.
      * cbn [try_block].
        destruct (PyStr.str_in "rate limit" (PyStr.lower t)); [discriminate |].
        intros [= <-]. left. by eexists.
      * destruct (has_content r) eqn:Hc.
        -- rewrite (try_block_content r Hc). intros [= <-].
           right. by exists (attempts w), r.
        -- rewrite (try_block_empty r Hc).
           destruct (PyStr.str_in "rate limit" (PyStr.lower (text_error r)));
             [discriminate |].
           intros [= <-]. left. by eexists.
Qed.

(** What the generative-text client returns is an error dictionary, or the
    success dictionary with the text of a response that has content: no
    success without content, and no other shape. *)
Theorem generate_result_error_or_success (E : env) (prompt : string) (w : trace) (d : dict) :
  fst (generate_gemini_content E prompt w) = Returns d ->
  (exists msg, d = err msg)
  \/ exists j r, send_message E prompt j = GmResponse r /\ has_content r = true
                 /\ d = {[ "success" := JStr (text r) ]}.
Proof.
  destruct (key_set (GEMINI_API_KEY E)) eqn:Hset.
  - rewrite (generate_configured E prompt w Hset). apply gm_attempts_result.
  - rewrite (generate_not_configured E prompt w Hset). cbn. intros [= <-]. left. by eexists.
Qed.

Lemma py_get_dict (d : dict) (k : string) (v : json) :
  d !! k = Some v -> py_get (JObj d) k = Returns v.
Proof. intros H. unfold py_get, get_or. by rewrite H. Qed.

Lemma py_item_dict (d : dict) (k : string) (v : json) :
  d !! k = Some v -> py_item (JObj d) k = Value v.
Proof. intros H. unfold py_item. by rewrite H. Qed.

(** Evaluates [prompt_from_frontend] on a body whose first content has a
    first part with a text. *)
Ltac first_part Hc Hp Ht :=
  unfold prompt_from_frontend;
  rewrite (py_get_dict _ "contents" _ Hc); cbn [of_py route_bind truthy];
  rewrite (py_item_dict _ "contents" _ Hc); cbn [route_bind py_first];
  rewrite (py_get_dict _ "parts" _ Hp); cbn [of_py route_bind truthy];
  rewrite (py_item_dict _ "parts" _ Hp); cbn [route_bind py_first];
  rewrite (py_item_dict _ "text" _ Ht).

(** The handler reads the prompt from the first part of the first content
    and from nowhere else: other contents, other parts and other fields do
    not matter. *)
Theorem prompt_from_first_part
  (d c p : dict) (cs ps : list json) (v : json) :
  d !! "contents" = Some (JList (JObj c :: cs)) ->
  c !! "parts" = Some (JList (JObj p :: ps)) ->
  p !! "text" = Some v ->
  prompt_from_frontend (JObj d) = Value v.
Proof.
  intros Hc Hp Ht. first_part Hc Hp Ht. reflexivity.
Qed.

(** A body without contents, or whose first content has no parts, gets the
    400 no-prompt answer; the model is not called. *)
Theorem generate_route_no_prompt
  (E : env) (other : json -> trace -> pyresult dict * trace) (d : dict) (w : trace) :
  truthy (get_or "contents" JNull d) = false
  \/ (exists c cs, d !! "contents" = Some (JList (JObj c :: cs))
                   /\ truthy (get_or "parts" JNull c) = false) ->
  generate_report_sections E other (JObj d) w = (Value no_prompt_response, w).
Proof.
  intros [Hno | (c & cs & Hc & Hno)]; unfold generate_report_sections, prompt_from_frontend.
  - cbn [py_get of_py route_bind]. by rewrite Hno.
  - rewrite (py_get_dict d "contents" _ Hc). cbn [of_py route_bind truthy].
    rewrite (py_item_dict d "contents" _ Hc). cbn [route_bind py_first py_get of_py].
    by rewrite Hno.
Qed.

(** For a body with a text prompt that is not empty the handler calls the
    client with that prompt, once. When the client returns, the answer is
    500 with the client's error message or 200 with the text of a response
    that has content; the key "success" is never missing. *)
Theorem generate_route_responses
  (E : env) (other : json -> trace -> pyresult dict * trace)
  (d c p : dict) (cs ps : list json) (a : ascii) (s : string)
  (w w' : trace) (ai : dict) :
  d !! "contents" = Some (JList (JObj c :: cs)) ->
  c !! "parts" = Some (JList (JObj p :: ps)) ->
  p !! "text" = Some (JStr (String a s)) ->
  generate_gemini_content E (String a s) w = (Returns ai, w') ->
  (exists msg, ai = err msg
     /\ generate_report_sections E other (JObj d) w
        = (Value (error_response 500 (JStr msg)), w'))
  \/ (exists j r, send_message E (String a s) j = GmResponse r /\ has_content r = true
        /\ generate_report_sections E other (JObj d) w
           = (Value {| body := JObj {[ "generated_content" := JStr (text r) ]};
                       status := 200 |}, w')).
Proof.
  intros Hc Hp Ht Hrun.
  assert (Hshape : (exists msg, ai = err msg)
                   \/ exists j r, send_message E (String a s) j = GmResponse r
                                  /\ has_content r = true
                                  /\ ai = {[ "success" := JStr (text r) ]}).
  { destruct (key_set (GEMINI_API_KEY E)) eqn:Hset.
    - apply (gm_attempts_result E (String a s) max_retries 0 w).
      by rewrite <- (generate_configured E (String a s) w Hset), Hrun.
    - rewrite (generate_not_configured E (String a s) w Hset) in Hrun.
      injection Hrun as <- <-. left. by eexists. }
  unfold generate_report_sections. first_part Hc Hp Ht.
  cbn [route_bind truthy PyStr.nonempty negb].
  rewrite Hrun.
  destruct Hshape as [[msg ->] | (j & r & Ho & Hr & ->)].
  - left. exists msg. split; [reflexivity |]. by rewrite has_key_err.
  - right. exists j, r. split; [exact Ho |]. split; [exact Hr |]. reflexivity.
Qed.

(** When the client raises (the rate-limit NameError), so does the
    handler. *)
Theorem generate_route_raises
  (E : env) (other : json -> trace -> pyresult dict * trace)
  (d c p : dict) (cs ps : list json) (a : ascii) (s : string)
  (w w' : trace) (e : exn) :
  d !! "contents" = Some (JList (JObj c :: cs)) ->
  c !! "parts" = Some (JList (JObj p :: ps)) ->
  p !! "text" = Some (JStr (String a s)) ->
  generate_gemini_content E (String a s) w = (Raises e, w') ->
  generate_report_sections E other (JObj d) w = (Failed (Builtin e), w').
Proof.
  intros Hc Hp Ht Hrun. unfold generate_report_sections. first_part Hc Hp Ht.
  cbn [route_bind truthy PyStr.nonempty negb].
  by rewrite Hrun.
Qed.

(** A body that is not a dictionary makes the handler raise at its first
    [get]. *)
Theorem generate_route_body_not_dict
  (E : env) (other : json -> trace -> pyresult dict * trace) (data : json) (w : trace) :
  type_name data <> "dict" ->
  generate_report_sections E other data w
  = (Failed (Builtin (AttributeError
                        ("'" +:+ type_name data +:+ "' object has no attribute 'get'"))), w).
Proof. intros H. by destruct data. Qed.

(** ** Concrete runs of the further properties *)

Lemma fetch_run_shape_witness :
  exists (k : nat) (final : trace),
    snd (fetch_alpha_vantage_data (sample_env []) (overview_params "IBM") [])
    = retried_attempts (EvGet (<[ "apikey" := "demo" ]> (overview_params "IBM"))) 0 k ++ final
    /\ (k <= max_retries)%nat.
Proof.
  destruct (fetch_run_shape (sample_env []) "demo" (overview_params "IBM") [])
    as (k & final & Htr & Hend).
  - reflexivity.
  - reflexivity.
  - exists k, final. split; [exact Htr |].
    destruct Hend as [(-> & _) | (Hlt & _)]; lia.
Defined.

Lemma fetch_recovers_after_transient_witness :
  let q : params := <[ "apikey" := "demo" ]> (overview_params "IBM") in
  fetch_alpha_vantage_data (flaky_env 2 {[ "Symbol" := JStr "IBM" ]} empty_response)
    (overview_params "IBM") []
  = ({[ "Symbol" := JStr "IBM" ]}, [] ++ retried_attempts (EvGet q) 0 2 ++ [EvGet q]).
Proof.
  intros q.
  apply (fetch_recovers_after_transient
           (flaky_env 2 {[ "Symbol" := JStr "IBM" ]} empty_response) "demo"
           (overview_params "IBM") [] 2
           {[ "Symbol" := JStr "IBM" ]} {[ "Symbol" := JStr "IBM" ]}).
  - reflexivity.
  - reflexivity.
  - unfold max_retries. lia.
  - intros j Hj. do 2 (destruct j as [|j]; [vm_compute; reflexivity |]). lia.
  - vm_compute. reflexivity.
  - vm_compute. reflexivity.
Defined.

Lemma fetch_all_transient_exhausts_witness :
  fetch_alpha_vantage_data (flaky_env 5 ∅ empty_response) (overview_params "IBM") []
  = (av_retries_exhausted,
     [] ++ retried_attempts (EvGet (<[ "apikey" := "demo" ]> (overview_params "IBM"))) 0
             max_retries).
Proof.
  apply (fetch_all_transient_exhausts (flaky_env 5 ∅ empty_response) "demo"
           (overview_params "IBM") []).
  - reflexivity.
  - reflexivity.
  - intros j Hj. unfold max_retries in Hj.
    do 5 (destruct j as [|j]; [vm_compute; reflexivity |]). lia.
Defined.

Lemma fetch_clean_body_passthrough_witness :
  fetch_alpha_vantage_data (sample_env []) (overview_params "IBM") []
  = ({[ "Symbol" := JStr "IBM" ]},
     [] ++ [EvGet (<[ "apikey" := "demo" ]> (overview_params "IBM"))]).
Proof.
  apply (fetch_clean_body_passthrough (sample_env []) "demo" (overview_params "IBM") []
           {[ "Symbol" := JStr "IBM" ]}).
  - reflexivity.
  - reflexivity.
  - vm_compute. reflexivity.
  - vm_compute. reflexivity.
  - intros v Hv. vm_compute in Hv. discriminate Hv.
  - intros v Hv. vm_compute in Hv. discriminate Hv.
Defined.

Lemma fetch_unexpected_exception_not_retried_witness :
  fetch_alpha_vantage_data
    (stub_env (Some "demo") (AvException "maximum recursion depth exceeded") (GmException ""))
    (overview_params "IBM") []
  = (av_unexpected "maximum recursion depth exceeded",
     [] ++ [EvGet (<[ "apikey" := "demo" ]> (overview_params "IBM"))]).
Proof.
  apply (fetch_unexpected_exception_not_retried
           (stub_env (Some "demo") (AvException "maximum recursion depth exceeded")
              (GmException "")) "demo" (overview_params "IBM") []).
  - reflexivity.
  - reflexivity.
  - reflexivity.
Defined.

Lemma fetch_error_message_not_text_witness :
  fetch_alpha_vantage_data
    (stub_env (Some "demo") (AvBody {[ "Error Message" := JInt 42 ]}) (GmException ""))
    (overview_params "IBM") []
  = (av_unexpected "'int' object has no attribute 'lower'",
     [] ++ [EvGet (<[ "apikey" := "demo" ]> (overview_params "IBM"))]).
Proof.
  apply (fetch_error_message_not_text
           (stub_env (Some "demo") (AvBody {[ "Error Message" := JInt 42 ]}) (GmException ""))
           "demo" (overview_params "IBM") [] {[ "Error Message" := JInt 42 ]} (JInt 42)).
  - reflexivity.
  - reflexivity.
  - reflexivity.
  - vm_compute. reflexivity.
  - discriminate.
Defined.

Lemma generate_raises_only_name_error_witness :
  exists j, rate_limit_exception (send_message (sample_env []) "hello" j) = true.
Proof.
  destruct (generate_raises_only_name_error (sample_env []) "hello" []
              (NameError "name 'retries' is not defined")) as (_ & Hj).
  - vm_compute. reflexivity.
  - exact Hj.
Defined.

Lemma generate_returns_without_rate_limit_witness :
  exists d, fst (generate_gemini_content (flaky_env 5 ∅ empty_response) "hello" []) = Returns d.
Proof.
  apply (generate_returns_without_rate_limit (flaky_env 5 ∅ empty_response) "hello" []).
  intros j. unfold flaky_env, flaky_send, send_message.
  destruct (j <? 5)%nat; vm_compute; reflexivity.
Defined.

Lemma generate_quota_exhausts_witness :
  generate_gemini_content (flaky_env 5 ∅ empty_response) "hello" []
  = (Returns gm_retries_exhausted, [] ++ retried_attempts (EvSend "hello") 0 max_retries).
Proof.
  apply (generate_quota_exhausts (flaky_env 5 ∅ empty_response) "hello" []).
  - reflexivity.
  - intros j Hj. unfold max_retries in Hj.
    do 5 (destruct j as [|j]; [vm_compute; reflexivity |]). lia.
Defined.

Lemma generate_recovers_after_quota_witness :
  generate_gemini_content (flaky_env 2 ∅ (text_response "{}")) "hello" []
  = (Returns {[ "success" := JStr "{}" ]},
     [] ++ retried_attempts (EvSend "hello") 0 2 ++ [EvSend "hello"]).
Proof.
  apply (generate_recovers_after_quota (flaky_env 2 ∅ (text_response "{}")) "hello" [] 2
           (text_response "{}")).
  - reflexivity.
  - unfold max_retries. lia.
  - intros j Hj. do 2 (destruct j as [|j]; [vm_compute; reflexivity |]). lia.
  - reflexivity.
  - reflexivity.
Defined.

Lemma generate_other_exception_not_retried_witness :
  generate_gemini_content
    (stub_env (Some "demo") (AvBody ∅) (GmException "400 API key not valid.")) "hello" []
  = (Returns (gm_unexpected "400 API key not valid."), [] ++ [EvSend "hello"]).
Proof.
  apply (generate_other_exception_not_retried
           (stub_env (Some "demo") (AvBody ∅) (GmException "400 API key not valid."))
           "hello" "400 API key not valid." []).
  - reflexivity.
  - reflexivity.
  - vm_compute. reflexivity.
  - vm_compute. reflexivity.
Defined.

Lemma generate_result_error_or_success_witness :
  (exists msg, ({[ "success" := JStr "{}" ]} : dict) = err msg)
  \/ exists j r,
       send_message (flaky_env 2 ∅ (text_response "{}")) "hello" j = GmResponse r
       /\ has_content r = true
       /\ ({[ "success" := JStr "{}" ]} : dict) = {[ "success" := JStr (text r) ]}.
Proof.
  apply (generate_result_error_or_success (flaky_env 2 ∅ (text_response "{}")) "hello" []).
  vm_compute. reflexivity.
Defined.

Lemma sanitize_keyword_clean_unchanged_witness :
  sanitize_keyword "brk.b" = "brk.b" /\ sanitize "brk.b" = "BRK.B".
Proof.
  destruct (sanitize_keyword_clean_unchanged "brk.b") as [H1 H2].
  - reflexivity.
  - split; [exact H1 | exact H2].
Defined.

Lemma proxy_route_not_configured_witness :
  get_balance_sheet (stub_env None (AvBody ∅) (GmException "")) "IBM" []
  = (error_response 500 (JStr "Alpha Vantage API key is not configured in the server."), []).
Proof.
  apply (proxy_route_not_configured (stub_env None (AvBody ∅) (GmException ""))
           "BALANCE_SHEET" "IBM" []).
  reflexivity.
Defined.

Lemma search_invalid_keyword_witness :
  search_stock_symbol (sample_env []) "$%&" [] = (Returns invalid_keyword_response, []).
Proof. apply (search_invalid_keyword (sample_env []) "$%&" []). reflexivity. Defined.

Lemma search_responses_witness :
  no_match_response = invalid_keyword_response
  \/ (exists v,
        fst (fetch_alpha_vantage_data (search_env (JList []))
               (search_params (sanitize_keyword "ibm")) []) !! "error" = Some v
        /\ no_match_response = error_response 500 v)
  \/ no_match_response = no_match_response
  \/ (exists o options,
        no_match_response = {| body := JList (o :: options); status := 200 |}
        /\ Forall valid_option (o :: options)).
Proof.
  apply (search_responses (search_env (JList [])) "ibm" []
           [EvGet (<[ "apikey" := "demo" ]> (search_params "ibm"))]).
  vm_compute. reflexivity.
Defined.

Lemma search_options_of_matches_witness :
  search_stock_symbol
    (search_env (JList (map JObj [sample_match "IBM" "International Business Machines";
                                  sample_match "N/A" "Not listed";
                                  sample_match "" "Nameless";
                                  sample_match "IBM.LON" "IBM London"])))
    "ibm" []
  = (Returns
       (match omap match_option [sample_match "IBM" "International Business Machines";
                                 sample_match "N/A" "Not listed";
                                 sample_match "" "Nameless";
                                 sample_match "IBM.LON" "IBM London"] with
        | [] => no_match_response
        | options => {| body := JList options; status := 200 |}
        end),
     [EvGet (<[ "apikey" := "demo" ]> (search_params "ibm"))])
  /\ length (omap match_option [sample_match "IBM" "International Business Machines";
                                sample_match "N/A" "Not listed";
                                sample_match "" "Nameless";
                                sample_match "IBM.LON" "IBM London"]) = 2%nat.
Proof.
  split; [| vm_compute; reflexivity].
  apply (search_options_of_matches _ "ibm" []
           [EvGet (<[ "apikey" := "demo" ]> (search_params "ibm"))]
           {[ "bestMatches" :=
                JList (map JObj [sample_match "IBM" "International Business Machines";
                                 sample_match "N/A" "Not listed";
                                 sample_match "" "Nameless";
                                 sample_match "IBM.LON" "IBM London"]) ]}).
  - discriminate.
  - vm_compute. reflexivity.
  - vm_compute. reflexivity.
  - vm_compute. reflexivity.
Defined.

Lemma search_match_not_dict_raises_witness :
  search_stock_symbol
    (search_env (JList (map JObj [sample_match "IBM" "International Business Machines"]
                        ++ JStr "IBM" :: [])))
    "ibm" []
  = (Raises (AttributeError ("'" +:+ type_name (JStr "IBM") +:+ "' object has no attribute 'get'")),
     [EvGet (<[ "apikey" := "demo" ]> (search_params "ibm"))]).
Proof.
  apply (search_match_not_dict_raises _ "ibm" []
           [EvGet (<[ "apikey" := "demo" ]> (search_params "ibm"))]
           {[ "bestMatches" :=
                JList (map JObj [sample_match "IBM" "International Business Machines"]
                       ++ JStr "IBM" :: []) ]}
           [sample_match "IBM" "International Business Machines"] (JStr "IBM") []).
  - discriminate.
  - vm_compute. reflexivity.
  - vm_compute. reflexivity.
  - vm_compute. reflexivity.
  - discriminate.
Defined.

Lemma full_report_invalid_ticker_witness :
  get_full_stock_report (sample_env []) "$%&" [] = (Returns invalid_ticker_response, [], None).
Proof. apply (full_report_invalid_ticker (sample_env []) "$%&" []). reflexivity. Defined.

Lemma full_report_all_succeed_witness :
  let r := {| symbol := "IBM";
              global_quote := JObj {[ "05. price" := JStr "172.50" ]};
              overview := JObj {[ "Symbol" := JStr "IBM" ]};
              income_statement := JList (map annual ["2023"; "2022"; "2021"]);
              earnings := {[ "annualReports" := JList (map annual ["2023"; "2022"; "2021"]) ]};
              error := JNull |} in
  get_full_stock_report (sample_env []) "ibm" []
  = (Returns {| body := jsonify_report r; status := 200 |},
     [EvGet (<[ "apikey" := "demo" ]> (quote_params "IBM"));
      EvGet (<[ "apikey" := "demo" ]> (overview_params "IBM"));
      EvGet (<[ "apikey" := "demo" ]> (income_params "IBM"));
      EvGet (<[ "apikey" := "demo" ]> (earnings_params "IBM"))],
     Some r).
Proof.
  intros r.
  etransitivity.
  - apply (full_report_all_succeed (sample_env []) "ibm" []
             [EvGet (<[ "apikey" := "demo" ]> (quote_params "IBM"))]
             [EvGet (<[ "apikey" := "demo" ]> (quote_params "IBM"));
              EvGet (<[ "apikey" := "demo" ]> (overview_params "IBM"))]
             [EvGet (<[ "apikey" := "demo" ]> (quote_params "IBM"));
              EvGet (<[ "apikey" := "demo" ]> (overview_params "IBM"));
              EvGet (<[ "apikey" := "demo" ]> (income_params "IBM"))]
             [EvGet (<[ "apikey" := "demo" ]> (quote_params "IBM"));
              EvGet (<[ "apikey" := "demo" ]> (overview_params "IBM"));
              EvGet (<[ "apikey" := "demo" ]> (income_params "IBM"));
              EvGet (<[ "apikey" := "demo" ]> (earnings_params "IBM"))]
             {[ "Global Quote" := JObj {[ "05. price" := JStr "172.50" ]} ]}
             {[ "Symbol" := JStr "IBM" ]}
             {[ "annualReports" := JList (map annual ["2023"; "2022"; "2021"; "2020"; "2019"]) ]}
             {[ "annualEarnings" := JList (map annual ["2023"; "2022"; "2021"; "2020"]) ]}
             (map annual ["2023"; "2022"; "2021"; "2020"; "2019"])
             (map annual ["2023"; "2022"; "2021"; "2020"]));
      first [discriminate | vm_compute; reflexivity].
  - vm_compute. reflexivity.
Defined.

Lemma full_report_responses_witness :
  status invalid_ticker_response = 400%nat
  \/ invalid_ticker_response = {| body := JObj (err not_found_message); status := 404 |}
  \/ exists r', (None : option report) = Some r' /\ error r' = JNull
                /\ invalid_ticker_response = {| body := jsonify_report r'; status := 200 |}.
Proof.
  apply (full_report_responses (sample_env []) "$%&" [] []).
  reflexivity.
Defined.

Lemma full_report_quote_failure_witness :
  get_full_stock_report (stub_env None (AvBody ∅) (GmException "")) "ibm" []
  = (Raises none_plus_str, [], Some (initial_report (sanitize "ibm"))).
Proof.
  apply (full_report_quote_failure (stub_env None (AvBody ∅) (GmException "")) "ibm" [] []
           av_not_configured).
  - reflexivity.
  - reflexivity.
  - vm_compute. reflexivity.
Defined.

Lemma prompt_from_first_part_witness :
  prompt_from_frontend (prompt_payload "Analyse IBM.") = Value (JStr "Analyse IBM.").
Proof.
  apply (prompt_from_first_part
           {[ "contents" := JList [JObj {[ "parts" := JList [JObj {[ "text" := JStr "Analyse IBM." ]}] ]}] ]}
           {[ "parts" := JList [JObj {[ "text" := JStr "Analyse IBM." ]}] ]}
           {[ "text" := JStr "Analyse IBM." ]} [] []).
  - vm_compute. reflexivity.
  - vm_compute. reflexivity.
  - vm_compute. reflexivity.
Defined.

Lemma generate_route_no_prompt_witness :
  generate_report_sections (sample_env []) (fun _ w => (Returns gm_malformed, w))
    (JObj {[ "contents" := JList [] ]}) []
  = (Value no_prompt_response, []).
Proof.
  apply (generate_route_no_prompt (sample_env []) (fun _ w => (Returns gm_malformed, w))
           {[ "contents" := JList [] ]} []).
  left. vm_compute. reflexivity.
Defined.

Lemma generate_route_responses_witness :
  generate_report_sections (flaky_env 1 ∅ (text_response "{}"))
    (fun _ w => (Returns gm_malformed, w)) (prompt_payload "Analyse IBM.") []
  = (Value {| body := JObj {[ "generated_content" := JStr "{}" ]}; status := 200 |},
     [EvSend "Analyse IBM."; EvSleep 1; EvSend "Analyse IBM."]).
Proof.
  destruct (generate_route_responses (flaky_env 1 ∅ (text_response "{}"))
              (fun _ w => (Returns gm_malformed, w))
              {[ "contents" := JList [JObj {[ "parts" := JList [JObj {[ "text" := JStr "Analyse IBM." ]}] ]}] ]}
              {[ "parts" := JList [JObj {[ "text" := JStr "Analyse IBM." ]}] ]}
              {[ "text" := JStr "Analyse IBM." ]} [] [] "A" "nalyse IBM."
              [] [EvSend "Analyse IBM."; EvSleep 1; EvSend "Analyse IBM."]
              {[ "success" := JStr "{}" ]})
    as [(msg & Hmsg & _) | (j & r & Ho & Hc & Hrun)].
  - vm_compute. reflexivity.
  - vm_compute. reflexivity.
  - vm_compute. reflexivity.
  - vm_compute. reflexivity.
  - exfalso. vm_compute in Hmsg. discriminate Hmsg.
  - unfold prompt_payload. rewrite Hrun.
    assert (Ht : text r = "{}").
    { unfold flaky_env, flaky_send, send_message in Ho.
      destruct (j <? 1)%nat; [discriminate Ho |]. by inversion Ho. }
    by rewrite Ht.
Defined.

Lemma generate_route_raises_witness :
  generate_report_sections (sample_env []) (fun _ w => (Returns gm_malformed, w))
    (prompt_payload "Analyse IBM.") []
  = (Failed (Builtin (NameError "name 'retries' is not defined")), [EvSend "Analyse IBM."]).
Proof.
  apply (generate_route_raises (sample_env []) (fun _ w => (Returns gm_malformed, w))
           {[ "contents" := JList [JObj {[ "parts" := JList [JObj {[ "text" := JStr "Analyse IBM." ]}] ]}] ]}
           {[ "parts" := JList [JObj {[ "text" := JStr "Analyse IBM." ]}] ]}
           {[ "text" := JStr "Analyse IBM." ]} [] [] "A" "nalyse IBM." []).
  - vm_compute. reflexivity.
  - vm_compute. reflexivity.
  - vm_compute. reflexivity.
  - vm_compute. reflexivity.
Defined.

Lemma generate_route_body_not_dict_witness :
  generate_report_sections (sample_env []) (fun _ w => (Returns gm_malformed, w))
    (JList [JStr "Analyse IBM."]) []
  = (Failed (Builtin (AttributeError "'list' object has no attribute 'get'")), []).
Proof.
  apply (generate_route_body_not_dict (sample_env []) (fun _ w => (Returns gm_malformed, w))
           (JList [JStr "Analyse IBM."]) []).
  discriminate.
Defined.

(** ** When a request is refused *)

Lemma bind_returns_inv {A B} (m : M A) (k : A -> M B) (st st' : store) (b : B) :
  bind m k st = (Returns b, st') ->
  exists a st1, m st = (Returns a, st1) /\ k a st1 = (Returns b, st').
Proof.
  unfold bind. destruct (m st) as [[a|e] st1]; [| discriminate].
  intros H. by exists a, st1.
Qed.

Lemma respond_status (st st' : store) (resp : response) :
  respond st = (Returns resp, st') -> status resp = 404%nat \/ status resp = 200%nat.
Proof.
  unfold respond, bind, get_report, ret.
  destruct (negb (truthy (global_quote (report_data st))) &&
            negb (truthy (overview (report_data st)))); intros [= <- <-]; [by left | by right].
Qed.

(** The full report is refused with 400 exactly when the ticker holds no
    allowed character; then nothing is requested. *)
Theorem full_report_refused_iff (E : env) (ticker : string) (w : trace) :
  (sanitize ticker = ""
   <-> exists resp, fst (fst (get_full_stock_report E ticker w)) = Returns resp
                    /\ status resp = 400%nat)
  /\ (sanitize ticker = "" ->
      get_full_stock_report E ticker w = (Returns invalid_ticker_response, w, None)).
Proof.
  assert (Hrefuse : sanitize ticker = "" ->
            get_full_stock_report E ticker w = (Returns invalid_ticker_response, w, None)).
  { intros H. unfold get_full_stock_report. by rewrite H. }
  split; [| exact Hrefuse]. split.
  - intros H. rewrite (Hrefuse H). by exists invalid_ticker_response.
  - intros (resp & Hres & Hst). unfold get_full_stock_report in Hres.
    destruct (sanitize ticker) as [|a s] eqn:Hs; [reflexivity |]. exfalso.
    cbn [PyStr.nonempty negb] in Hres.
    match type of Hres with
    | context [let '(_, _) := ?run in _] => destruct run as [res st] eqn:Hrun
    end.
    cbn [fst] in Hres. subst res.
    apply bind_returns_inv in Hrun as (_ & st1 & _ & Hrun).
    apply bind_returns_inv in Hrun as (_ & st2 & _ & Hrun).
    apply bind_returns_inv in Hrun as (_ & st3 & _ & Hrun).
    apply bind_returns_inv in Hrun as (_ & st4 & _ & Hrun).
    destruct (respond_status _ _ _ Hrun) as [H | H]; rewrite H in Hst; discriminate.
Qed.

(** The search is refused with 400 exactly when the keyword holds no
    allowed character; then nothing is requested. *)
Theorem search_refused_iff (E : env) (keyword : string) (w : trace) :
  (sanitize_keyword keyword = ""
   <-> exists resp, fst (search_stock_symbol E keyword w) = Returns resp
                    /\ status resp = 400%nat)
  /\ (sanitize_keyword keyword = "" ->
      search_stock_symbol E keyword w = (Returns invalid_keyword_response, w)).
Proof.
  split; [| apply search_invalid_keyword]. split.
  - intros H. rewrite (search_invalid_keyword E keyword w H). by exists invalid_keyword_response.
  - intros (resp & Hres & Hst).
    destruct (search_stock_symbol E keyword w) as [res w'] eqn:Hrun.
    cbn [fst] in Hres. subst res.
    unfold search_stock_symbol in Hrun.
    destruct (sanitize_keyword keyword) as [|a s] eqn:Hs; [reflexivity |]. exfalso.
    cbn [PyStr.nonempty negb] in Hrun.
    destruct (fetch_alpha_vantage_data E _ w) as [search_data w1].
    destruct (has_key "error" search_data);
      [inversion Hrun; subst resp; discriminate Hst |].
    destruct (py_iter _) as [matches|e]; [| discriminate Hrun]. cbn [pybind] in Hrun.
    destruct (collect_options matches []) as [options|e]; [| discriminate Hrun].
    cbn [pybind] in Hrun.
    destruct (negb (truthy (JList options)));
      [destruct (negb (truthy (get_or "error" JNull search_data))) |];
      inversion Hrun; subst resp; discriminate Hst.
Qed.

Lemma full_report_refused_iff_witness :
  get_full_stock_report (sample_env []) "$%&" [] = (Returns invalid_ticker_response, [], None).
Proof.
  destruct (full_report_refused_iff (sample_env []) "$%&" []) as [_ H].
  apply H. reflexivity.
Defined.

Lemma search_refused_iff_witness :
  search_stock_symbol (sample_env []) "$%&" [] = (Returns invalid_keyword_response, []).
Proof.
  destruct (search_refused_iff (sample_env []) "$%&" []) as [_ H].
  apply H. reflexivity.
Defined.
